(** * Financial analysis notebook: a shallow embedding and its properties

    The development follows [notebook/01_financial-analysis-notebook.ipynb]:
    the setup cell, the loaders ([load_from_csv], [load_from_google_sheets],
    [load_data]), the classifier ([categorize_transaction],
    [categorize_transactions]), the aggregates computed at the head of
    [generate_financial_summary], the advice generator and the report
    renderer ([create_pdf_report]).

    Conventions of the embedding.
    - A Python [str] is a [string]; text outside ASCII is carried as the
      bytes of its UTF-8 encoding, so the ASCII tokens the notebook searches
      for never match inside a multi-byte character, and the white space
      [str.strip] removes is recognised by its encoding, the white space
      outside ASCII included.
    - A data frame with the five columns of the data is the list of its rows
      in index order (the frames the loaders build carry a [RangeIndex], so
      the label of a row is its position).  A [Category] cell is [None]
      when pandas holds a missing value there (what [pd.read_csv] makes of
      a blank field) and [Some s] when it holds the text [s]; [Some ""] is
      the empty text (what [get_all_records] makes of a blank cell).  The
      frame without any column that [pd.DataFrame] builds from an empty
      list of records is kept apart: it has no row, and asking it for a
      column raises [KeyError].
    - An [Amount] is a number as pandas holds it, [Int64 z] in an integer
      column and [Float64 f] in a column of binary64 floats; data whose
      Amount column is not numeric is not represented.  The sums are the
      work of two kernels, that of [Series.sum] and that of the grouped
      sum, which round and overflow each in its own way; both are taken
      from [Ext] and no arithmetic law is assumed of them.
    - Everything outside the interpreter (environment, files, the hosted
      services, the rendering engine, the numeric and formatting routines of
      numpy and pandas) is gathered in [Ext] and [World]; an exception is
      the [Raise] outcome of the monad [M]. *)

From Stdlib Require Import PrimFloat FloatOps.
From Stdlib Require Import ZArith Lia.
From stdpp Require Import base option list gmap strings pretty fin_maps.

Local Open Scope Z_scope.

(** ** Data model *)

(** A cell of a numeric column. *)
Inductive Number :=
| Int64 (z : Z)
| Float64 (f : float).

Record Transaction := mkTransaction {
  Date : string;
  Description : string;
  Category : option string;
  Income_Expense : string;
  Amount : Number
}.

Abbreviation DataFrame := (list Transaction).

(** ** Text: the [str] methods the notebook calls *)

(** The line feed, Python's ['\n'], and the double quote. *)
Definition nl : string := String (Ascii.ascii_of_nat 10) EmptyString.
Definition dq : string := String (Ascii.ascii_of_nat 34) EmptyString.

(** The white space of [str.strip] and [str.isspace].  In ASCII: tab to
    carriage return, the four separators 28 to 31 and the space. *)
Definition ascii_space (a : Ascii.ascii) : bool :=
  let n := Ascii.nat_of_ascii a in
  ((9 <=? n)%nat && (n <=? 13)%nat) || ((28 <=? n)%nat && (n <=? 32)%nat).

(** On two bytes: U+0085 (C2 85) and U+00A0 (C2 A0). *)
Definition two_byte_space (a b : Ascii.ascii) : bool :=
  let x := Ascii.nat_of_ascii a in
  let y := Ascii.nat_of_ascii b in
  (x =? 194)%nat && ((y =? 133)%nat || (y =? 160)%nat).

(** On three bytes: U+1680 (E1 9A 80), U+2000 to U+200A (E2 80 80 to
    E2 80 8A), U+2028, U+2029 and U+202F (E2 80 A8, A9 and AF), U+205F
    (E2 81 9F) and U+3000 (E3 80 80). *)
Definition three_byte_space (a b c : Ascii.ascii) : bool :=
  let x := Ascii.nat_of_ascii a in
  let y := Ascii.nat_of_ascii b in
  let z := Ascii.nat_of_ascii c in
  ((x =? 225)%nat && (y =? 154)%nat && (z =? 128)%nat) ||
  ((x =? 226)%nat && (y =? 128)%nat &&
   (((128 <=? z)%nat && (z <=? 138)%nat) ||
    (z =? 168)%nat || (z =? 169)%nat || (z =? 175)%nat)) ||
  ((x =? 226)%nat && (y =? 129)%nat && (z =? 159)%nat) ||
  ((x =? 227)%nat && (y =? 128)%nat && (z =? 128)%nat).

(** The number of bytes of the white-space character [s] starts with; zero
    when it starts with none. *)
Definition space_width (s : string) : nat :=
  match s with
  | String a rest1 =>
      if ascii_space a then 1%nat
      else match rest1 with
           | String b rest2 =>
               if two_byte_space a b then 2%nat
               else match rest2 with
                    | String c _ => if three_byte_space a b c then 3%nat else 0%nat
                    | EmptyString => 0%nat
                    end
           | EmptyString => 0%nat
           end
  | EmptyString => 0%nat
  end.

(** [s] is made of white space only. *)
Fixpoint blank (s : string) : bool :=
  match s with
  | EmptyString => true
  | String a rest1 =>
      if ascii_space a then blank rest1
      else match rest1 with
           | String b rest2 =>
               if two_byte_space a b then blank rest2
               else match rest2 with
                    | String c rest3 =>
                        if three_byte_space a b c then blank rest3 else false
                    | EmptyString => false
                    end
           | EmptyString => false
           end
  end.

(** [str.lstrip()]: drop white-space characters as long as the text starts
    with one. *)
Fixpoint lstrip (s : string) : string :=
  match s with
  | EmptyString => EmptyString
  | String a rest1 =>
      if ascii_space a then lstrip rest1
      else match rest1 with
           | String b rest2 =>
               if two_byte_space a b then lstrip rest2
               else match rest2 with
                    | String c rest3 =>
                        if three_byte_space a b c then lstrip rest3 else s
                    | EmptyString => s
                    end
           | EmptyString => s
           end
  end.

(** [str.rstrip()]: cut the text where what remains is white space only. *)
Fixpoint rstrip (s : string) : string :=
  match s with
  | EmptyString => EmptyString
  | String c rest => if blank s then EmptyString else String c (rstrip rest)
  end.

(** [str.strip()] *)
Definition strip (s : string) : string := rstrip (lstrip s).

Definition ascii_lower (c : Ascii.ascii) : Ascii.ascii :=
  let n := Ascii.nat_of_ascii c in
  if ((65 <=? n)%nat && (n <=? 90)%nat) then Ascii.ascii_of_nat (n + 32) else c.

(** [str.lower()] on ASCII letters. *)
Fixpoint lower (s : string) : string :=
  match s with
  | EmptyString => EmptyString
  | String c rest => String (ascii_lower c) (lower rest)
  end.

(** [s.replace(old, new)]: scan from the left; where [old] starts, put [new]
    and jump over [old]; elsewhere copy the character.  [skip] counts the
    characters of a matched [old] still to be jumped over.  An empty [old]
    matches before every character and at the end. *)
Fixpoint replace_from (old new : string) (skip : nat) (s : string) : string :=
  match s with
  | EmptyString => if String.prefix old EmptyString then new else EmptyString
  | String c rest =>
      match skip with
      | S k => replace_from old new k rest
      | O =>
          if String.prefix old s
          then match old with
               | EmptyString => new +:+ String c (replace_from old new 0 rest)
               | String _ _ =>
                   new +:+ replace_from old new (String.length old - 1) rest
               end
          else String c (replace_from old new 0 rest)
      end
  end.

Definition replace (old new s : string) : string := replace_from old new 0 s.

(** [t] occurs in [s]. *)
Definition occurs (t s : string) : Prop := exists a b, s = a +:+ t +:+ b.

Fixpoint occursb (t s : string) : bool :=
  String.prefix t s ||
  match s with
  | EmptyString => false
  | String _ rest => occursb t rest
  end.

(** A label: a text with at least one character that is not white space. *)
Definition has_visible (s : string) : bool := negb (blank s).

(** The text starts with a white-space character. *)
Definition starts_blank (s : string) : bool := negb (space_width s =? 0)%nat.

(** The text is one white-space character. *)
Definition one_space (s : string) : bool :=
  negb (space_width s =? 0)%nat && (space_width s =? String.length s)%nat.

(** The text ends with a white-space character. *)
Fixpoint ends_blank (s : string) : bool :=
  match s with
  | EmptyString => false
  | String _ rest => one_space s || ends_blank rest
  end.

(** ** The world around the notebook *)

Record Exn := mkExn { exn_class : string; exn_msg : string }.

Inductive Res (A : Type) : Type :=
| Ok (a : A)
| Raise (e : Exn).
Arguments Ok {A} a.
Arguments Raise {A} e.

Inductive Event :=
| EvShell (command : string)
| EvExists (path : string)
| EvReadCsv (path : string)
| EvSheets (credentials url : option string)
| EvChat (model : string) (messages : list (string * string))
| EvPdf (html output_path : string) (options : list (string * string))
| EvPrint (text : string)
| EvPrintHead (rows : DataFrame)
| EvPrintInfo (rows : DataFrame)
| EvPrintUnique (column : list (option string)).

(** What the libraries and services answer.
    - [pd_read_csv content] is the frame [pd.read_csv] makes of a file with
      that content, its blank fields being missing values.
    - [sheet_records fs keyfile url] is what the chain
      [from_json_keyfile_name], [authorize], [open_by_url], [sheet1],
      [get_all_records] yields: it reads the key file named [keyfile] in the
      file system [fs] and asks the sheet service for the sheet at [url].
    - [chat_completion n model messages] is the content of the first choice
      of the [n]-th request.
    - [pdfkit_engine html path options fs] is what [pdfkit.from_string]
      makes of the file system and the exception it raises, if any.
    - [series_sum] is the kernel of [Series.sum] and [groupby_sum] that of
      the grouped sum, each applied to the values it adds, in row order.
    - [format_2f] prints a number with two decimals ([:.2f]) and
      [dict_repr] prints the dictionary of [to_dict]. *)
Record Ext := mkExt {
  dotenv : gmap string string;
  pd_read_csv : string -> Res DataFrame;
  sheet_records : gmap string string -> option string -> option string ->
                  Res DataFrame;
  chat_completion : nat -> string -> list (string * string) -> Res string;
  pdfkit_engine : string -> string -> list (string * string) ->
                  gmap string string -> option Exn * gmap string string;
  frame_to_string : DataFrame -> string;
  series_sum : list Number -> Number;
  groupby_sum : list Number -> Number;
  format_2f : Number -> string;
  dict_repr : gmap string Number -> string
}.

(** The state a run acts on: environment variables, files, [openai.api_key],
    the frame objects with the five columns (a name such as [df] holds a
    reference), the number of requests sent so far, the trace of what the
    run did, and the frame objects that have no column at all. *)
Record World := mkWorld {
  environ : gmap string string;
  files : gmap string string;
  api_key : option string;
  heap : gmap nat DataFrame;
  requests : nat;
  trace : list Event;
  bare : gset nat
}.

Definition M (A : Type) : Type := World -> Res A * World.

Definition ret {A} (a : A) : M A := fun w => (Ok a, w).

Definition bind {A B} (m : M A) (k : A -> M B) : M B :=
  fun w =>
    match m w with
    | (Ok a, w') => k a w'
    | (Raise e, w') => (Raise e, w')
    end.

Notation "'let*' x ':=' m 'in' k" := (bind m (fun x => k))
  (at level 10, x name, m at level 100, k at level 200).
Notation "m '>>' k" := (bind m (fun _ => k))
  (at level 100, k at level 200, right associativity).

Definition raise {A} (e : Exn) : M A := fun w => (Raise e, w).

Definition emit (ev : Event) : M unit :=
  fun w => (Ok tt, mkWorld (environ w) (files w) (api_key w) (heap w)
                           (requests w) (trace w ++ [ev]) (bare w)).

Definition print (text : string) : M unit := emit (EvPrint text).

(** [os.getenv(name)] and [os.getenv(name, default)] *)
Definition getenv (name : string) : M (option string) :=
  fun w => (Ok (environ w !! name), w).

Definition getenv_default (name dflt : string) : M string :=
  fun w => (Ok (default dflt (environ w !! name)), w).

(** [load_dotenv()]: the variables of the [.env] file, without overriding
    those already set. *)
Definition load_dotenv (X : Ext) : M unit :=
  fun w => (Ok tt, mkWorld (environ w ∪ dotenv X) (files w) (api_key w)
                           (heap w) (requests w) (trace w) (bare w)).

Definition set_api_key (k : option string) : M unit :=
  fun w => (Ok tt, mkWorld (environ w) (files w) k (heap w)
                           (requests w) (trace w) (bare w)).

(** [os.path.exists(path)] *)
Definition os_path_exists (path : string) : M bool :=
  emit (EvExists path) >>
  fun w => (Ok (bool_decide (is_Some (files w !! path))), w).

(** A new frame object with the five columns and the given rows. *)
Definition new_frame (d : DataFrame) : M nat :=
  fun w =>
    let l := fresh (dom (heap w) ∪ bare w) in
    (Ok l, mkWorld (environ w) (files w) (api_key w) (<[l := d]> (heap w))
                   (requests w) (trace w) (bare w)).

(** A new frame object without columns or rows. *)
Definition new_bare_frame : M nat :=
  fun w =>
    let l := fresh (dom (heap w) ∪ bare w) in
    (Ok l, mkWorld (environ w) (files w) (api_key w) (heap w)
                   (requests w) (trace w) ({[l]} ∪ bare w)).

(** [pd.DataFrame(data)] for a list of records: the columns are the keys of
    the records, so that an empty list gives a frame without columns. *)
Definition DataFrame_of_records (data : DataFrame) : M nat :=
  match data with
  | [] => new_bare_frame
  | _ :: _ => new_frame data
  end.

Definition name_error : Exn := mkExn "NameError" "name is not defined".

(** The rows of a frame, for what needs no column ([head], [info],
    [to_string]). *)
Definition get_frame (l : nat) : M DataFrame :=
  fun w =>
    match heap w !! l with
    | Some d => (Ok d, w)
    | None => if decide (l ∈ bare w) then (Ok [], w) else (Raise name_error, w)
    end.

(** [df[column]]: the rows of a frame that has the column; a frame without
    columns raises [KeyError]. *)
Definition get_column (column : string) (l : nat) : M DataFrame :=
  fun w =>
    match heap w !! l with
    | Some d => (Ok d, w)
    | None =>
        if decide (l ∈ bare w)
        then (Raise (mkExn "KeyError" ("'" +:+ column +:+ "'")), w)
        else (Raise name_error, w)
    end.

Definition modify_frame (l : nat) (f : DataFrame -> DataFrame) : M unit :=
  fun w => (Ok tt, mkWorld (environ w) (files w) (api_key w)
                           (alter f l (heap w)) (requests w) (trace w) (bare w)).

(** A library call that yields a value or raises. *)
Definition lift_res {A} (r : Res A) : M A := fun w => (r, w).

(** [openai.ChatCompletion.create(model=..., messages=...)] followed by
    [.choices[0].message.content] *)
Definition ChatCompletion_create (X : Ext) (model : string)
    (messages : list (string * string)) : M string :=
  emit (EvChat model messages) >>
  fun w =>
    (chat_completion X (requests w) model messages,
     mkWorld (environ w) (files w) (api_key w) (heap w)
             (S (requests w)) (trace w) (bare w)).

(** [pdfkit.from_string(html, output_path, options=options)] *)
Definition pdfkit_from_string (X : Ext) (html output_path : string)
    (options : list (string * string)) : M unit :=
  emit (EvPdf html output_path options) >>
  fun w =>
    let '(failure, fs) := pdfkit_engine X html output_path options (files w) in
    (match failure with Some e => Raise e | None => Ok tt end,
     mkWorld (environ w) fs (api_key w) (heap w) (requests w) (trace w) (bare w)).

(** A [for] loop over a list computed before the loop starts. *)
Fixpoint for_each {A} (xs : list A) (body : A -> M unit) : M unit :=
  match xs with
  | [] => ret tt
  | x :: rest => body x >> for_each rest body
  end.


(** ** Aggregator: the first three statements of [generate_financial_summary] *)

(** [df[df['Income/Expense'] == flag]] *)
Definition select_flag (flag : string) (df : DataFrame) : DataFrame :=
  filter (fun r => Income_Expense r = flag) df.

(** [.groupby('Category')['Amount']]: one pass over the rows, each amount
    joining the values of the row's group; a row whose key is missing
    belongs to no group ([dropna=True] is the default of [groupby]). *)
Definition group_step (acc : gmap string (list Number)) (r : Transaction)
    : gmap string (list Number) :=
  match Category r with
  | Some c => <[c := default [] (acc !! c) ++ [Amount r]]> acc
  | None => acc
  end.

Definition groupby_Category (df : DataFrame) : gmap string (list Number) :=
  foldl group_step ∅ df.

Definition total_spent (X : Ext) (df : DataFrame) : Number :=
  series_sum X (Amount <$> select_flag "Expense" df).

Definition total_income (X : Ext) (df : DataFrame) : Number :=
  series_sum X (Amount <$> select_flag "Income" df).

Definition category_spending (X : Ext) (df : DataFrame) : gmap string Number :=
  groupby_sum X <$> groupby_Category (select_flag "Expense" df).

(** The wording of the specification: the amounts of the rows whose flag is
    the given one. *)
Fixpoint spec_amounts (flag : string) (df : DataFrame) : list Number :=
  match df with
  | [] => []
  | r :: rest =>
      if decide (Income_Expense r = flag)
      then Amount r :: spec_amounts flag rest
      else spec_amounts flag rest
  end.

(** The amounts of the Expense rows that carry the category [c]. *)
Fixpoint spec_category_amounts (c : string) (df : DataFrame) : list Number :=
  match df with
  | [] => []
  | r :: rest =>
      if decide (Income_Expense r = "Expense" /\ Category r = Some c)
      then Amount r :: spec_category_amounts c rest
      else spec_category_amounts c rest
  end.

(** The integer an [Int64] cell holds. *)
Definition int_value (x : Number) : Z :=
  match x with
  | Int64 z => z
  | Float64 _ => 0
  end.


(** The sum of integers, in the integers. *)
Definition int_sum (xs : list Number) : Z :=
  foldr (fun x s => int_value x + s) 0 xs.



(** ** Setup cells *)

Definition install_event : Event :=
  EvShell "pip install python-dotenv pandas gspread oauth2client openai==0.28.0 pdfkit gradio".

Definition cell_install : M unit := emit install_event.

(** [not openai.api_key]: [None] and the empty text are both false. *)
Definition falsy (k : option string) : bool :=
  match k with
  | None => true
  | Some s => bool_decide (s = "")
  end.

Definition cell_setup (X : Ext) : M unit :=
  load_dotenv X >>
  let* k := getenv "OPENAI_API_KEY" in
  set_api_key k >>
  if falsy k
  then raise (mkExn "ValueError" "OpenAI API key is not set. Please check your .env file.")
  else ret tt.

(** ** Data Loader *)

Definition load_from_google_sheets (X : Ext) : M nat :=
  let* creds := getenv "GOOGLE_APPLICATION_CREDENTIALS" in
  let* url := getenv "DUMMY_DATA_SPREADSHEET" in
  emit (EvSheets creds url) >>
  let* data := (fun w => (sheet_records X (files w) creds url, w)) in
  DataFrame_of_records data.

Definition csv_path : string := "../data/data.csv".

(** [pd.read_csv(path)] *)
Definition read_csv (X : Ext) (path : string) : M nat :=
  emit (EvReadCsv path) >>
  let* content := (fun w =>
    match files w !! path with
    | Some c => (Ok c, w)
    | None => (Raise (mkExn "FileNotFoundError" "No such file or directory"), w)
    end) in
  let* data := lift_res (pd_read_csv X content) in
  new_frame data.

Definition load_from_csv (X : Ext) : M nat :=
  let* present := os_path_exists csv_path in
  if negb present
  then raise (mkExn "FileNotFoundError"
                    ("The file " +:+ csv_path +:+ " does not exist."))
  else read_csv X csv_path.

Definition load_data (X : Ext) : M nat :=
  let* flag := getenv_default "USE_GOOGLE_SHEETS" "false" in
  if bool_decide (lower flag = "true")
  then load_from_google_sheets X
  else load_from_csv X.

(** ** Transaction Classifier *)

Definition classifier_rules : string :=
  "You are a helpful financial assistant. Categorize transactions into one of the following categories: Groceries, Utilities, Rent, Entertainment, Transportation, Dining Out, Miscellaneous, Health & Fitness, Housing, Investments, Insurance, Charity, and Income.".

Definition classifier_request (description : string) : list (string * string) :=
  [("system", classifier_rules);
   ("user", "Categorize the following transaction: '" +:+ description +:+
            "'. Respond with the category name only.")].

Definition categorize_transaction (X : Ext) (description : string) : M string :=
  let* content := ChatCompletion_create X "gpt-4o-mini" (classifier_request description) in
  ret (strip content).

(** [df[df['Category'] == ''].iterrows()]: the rows whose category is the
    empty text, each with its index label; a missing value is not equal to
    [''], so such a row is not selected. *)
Definition empty_category_rows (d : DataFrame) : list (nat * Transaction) :=
  filter (fun ir => Category ir.2 = Some "") (imap pair d).

Definition with_Category (category : string) (r : Transaction) : Transaction :=
  mkTransaction (Date r) (Description r) (Some category) (Income_Expense r) (Amount r).

(** [df.at[index, 'Category'] = category] *)
Definition set_Category_at (index : nat) (category : string) (d : DataFrame) : DataFrame :=
  alter (with_Category category) index d.

Definition categorize_transactions (X : Ext) (df : nat) : M nat :=
  let* d := get_column "Category" df in
  for_each (empty_category_rows d) (fun ir =>
    let* category := categorize_transaction X (Description ir.2) in
    modify_frame df (set_Category_at ir.1 category)) >>
  ret df.

(** ** Summary Generator *)

Definition summary_request (X : Ext) (d : DataFrame) : list (string * string) :=
  [("system", "You are a helpful financial assistant. Generate a concise financial summary based on the provided data.");
   ("user", "Generate a financial summary based on the following data:" +:+ nl +:+
            "Total Income: $" +:+ format_2f X (total_income X d) +:+ nl +:+
            "Total Expenses: $" +:+ format_2f X (total_spent X d) +:+ nl +:+
            "Spending by category: " +:+ dict_repr X (category_spending X d))].

Definition generate_financial_summary (X : Ext) (df : nat) : M string :=
  let* d := get_column "Income/Expense" df in
  let* content := ChatCompletion_create X "gpt-4o-mini" (summary_request X d) in
  ret (strip content).

(** ** Advice Generator *)

Inductive PyVal := PyNone | PyInt (z : Z) | PyStr (s : string).

(** What an f-string prints for the value. *)
Definition py_str (v : PyVal) : string :=
  match v with
  | PyNone => "None"
  | PyInt z => pretty z
  | PyStr s => s
  end.

Definition advice_prompt (X : Ext) (d : DataFrame) (age lifestyle hobbies : PyVal) : string :=
  nl +:+
  "    Based on the following transaction data:" +:+ nl +:+
  nl +:+
  "    " +:+ frame_to_string X d +:+ nl +:+
  nl +:+
  "    And considering the following personal information:" +:+ nl +:+
  "    Age: " +:+ py_str age +:+ nl +:+
  "    Lifestyle: " +:+ py_str lifestyle +:+ nl +:+
  "    Hobbies: " +:+ py_str hobbies +:+ nl +:+
  nl +:+
  "    Please provide personalized financial advice. Include suggestions for budgeting, saving, and potential areas for improvement." +:+ nl +:+
  "    ".

Definition generate_personalized_advice (X : Ext) (df : nat)
    (age lifestyle hobbies : PyVal) : M string :=
  let* d := get_frame df in
  ChatCompletion_create X "gpt-4o-mini"
    [("system", "You are a helpful financial advisor.");
     ("user", advice_prompt X d age lifestyle hobbies)].

(** ** Report Renderer *)

(** The template of [create_pdf_report], up to the first placeholder ([{{] and [}}] are the
    braces [str.format] prints). *)
Definition template_head : string :=
  nl +:+
  "    <!DOCTYPE html>" +:+ nl +:+
  "    <html>" +:+ nl +:+
  "    <head>" +:+ nl +:+
  "        <meta charset=" +:+ dq +:+ "UTF-8" +:+ dq +:+ ">" +:+ nl +:+
  "        <title>Financial Report</title>" +:+ nl +:+
  "        <style>" +:+ nl +:+
  "            body { font-family: Arial, sans-serif; line-height: 1.6; color: #333; }" +:+ nl +:+
  "            h1 { color: #2c3e50; text-align: center; }" +:+ nl +:+
  "            h2 { color: #34495e; }" +:+ nl +:+
  "            h3 { color: #2980b9; }" +:+ nl +:+
  "            .section { margin-bottom: 20px; }" +:+ nl +:+
  "            ul { padding-left: 20px; }" +:+ nl +:+
  "        </style>" +:+ nl +:+
  "    </head>" +:+ nl +:+
  "    <body>" +:+ nl +:+
  "        <h1>Financial Report</h1>" +:+ nl +:+
  "        " +:+ nl +:+
  "        <div class=" +:+ dq +:+ "section" +:+ dq +:+ ">" +:+ nl +:+
  "            <h2>Financial Summary</h2>" +:+ nl +:+
  "            ".

(** The template between the two placeholders. *)
Definition template_mid : string :=
  nl +:+
  "        </div>" +:+ nl +:+
  "        " +:+ nl +:+
  "        <div class=" +:+ dq +:+ "section" +:+ dq +:+ ">" +:+ nl +:+
  "            <h2>Personalized Financial Advice</h2>" +:+ nl +:+
  "            ".

(** The template after the second placeholder. *)
Definition template_tail : string :=
  nl +:+
  "        </div>" +:+ nl +:+
  "    </body>" +:+ nl +:+
  "    </html>" +:+ nl +:+
  "    ".

(** [text.replace('**', '').replace('###', '<h3>').replace('\n', '<br>')] *)
Definition markup (text : string) : string :=
  replace nl "<br>" (replace "###" "<h3>" (replace "**" "" text)).

Definition html_content (summary advice : string) : string :=
  template_head +:+ markup summary +:+ template_mid +:+ markup advice +:+ template_tail.

Definition pdf_options : list (string * string) :=
  [("page-size", "A4"); ("margin-top", "0.75in"); ("margin-right", "0.75in");
   ("margin-bottom", "0.75in"); ("margin-left", "0.75in"); ("encoding", "UTF-8")].

Definition create_pdf_report (X : Ext) (summary advice output_path : string) : M unit :=
  pdfkit_from_string X (html_content summary advice) output_path pdf_options >>
  print ("PDF report generated: " +:+ output_path).

(** ** The cells of the notebook, in order *)

Definition cell_load (X : Ext) : M nat :=
  let* df := load_data X in
  let* d := get_frame df in
  emit (EvPrintHead (take 5 d)) >>
  emit (EvPrintInfo d) >>
  print "None" >>
  ret df.

Definition cell_categorize (X : Ext) (df : nat) : M nat :=
  let* df := categorize_transactions X df in
  let* d := get_frame df in
  emit (EvPrintHead (take 5 d)) >>
  print "Unique categories:" >>
  emit (EvPrintUnique (Category <$> d)) >>
  ret df.

Definition cell_summary (X : Ext) (df : nat) : M string :=
  let* summary := generate_financial_summary X df in
  print "Financial Summary:" >>
  print summary >>
  ret summary.

Definition cell_advice (X : Ext) (df : nat) : M string :=
  let* advice := generate_personalized_advice X df (PyInt 30) (PyStr "Urban")
                   (PyStr "Reading, Traveling") in
  print "Personalized Financial Advice:" >>
  print advice >>
  ret advice.

Definition cell_report (X : Ext) (summary advice : string) : M unit :=
  create_pdf_report X summary advice "financial_report.pdf" >>
  print "PDF report has been generated.".

(** The pipeline proper: every cell after the setup. *)
Definition pipeline (X : Ext) : M unit :=
  let* df := cell_load X in
  let* df := cell_categorize X df in
  let* summary := cell_summary X df in
  let* advice := cell_advice X df in
  cell_report X summary advice.

(** Running the notebook from top to bottom. *)
Definition run_all (X : Ext) : M unit :=
  cell_install >> cell_setup X >> pipeline X.


(** * Notions used in the statements *)

(** ** Exceptions and events of the notebook *)

Definition not_found : Exn :=
  mkExn "FileNotFoundError" "The file ../data/data.csv does not exist.".

Definition key_error : Exn :=
  mkExn "ValueError" "OpenAI API key is not set. Please check your .env file.".

Definition no_engine : Exn := mkExn "OSError" "No wkhtmltopdf executable found".

Definition consults_sheet (ev : Event) : bool :=
  match ev with
  | EvSheets _ _ => true
  | _ => false
  end.

Definition consults_file (ev : Event) : bool :=
  match ev with
  | EvExists _ | EvReadCsv _ => true
  | _ => false
  end.

(** The flag selects the remote sheet: the test of [load_data] on
    [USE_GOOGLE_SHEETS]. *)
Definition selects_sheet (w : World) : Prop :=
  lower (default "false" (environ w !! "USE_GOOGLE_SHEETS")) = "true".

(** ** The classification pass, row by row *)

(** The answer of the service to the [n]-th request, when that request asks
    for the category of [description]. *)
Definition answer (X : Ext) (n : nat) (description : string) : Res string :=
  chat_completion X n "gpt-4o-mini" (classifier_request description).

(** The pass of [categorize_transactions] told row by row: the outcome, the
    frame it leaves and the number of the next request, from the number [n]
    of the first one. *)
Fixpoint pass_model (X : Ext) (n : nat) (d : DataFrame) : Res unit * DataFrame * nat :=
  match d with
  | [] => (Ok tt, [], n)
  | r :: rest =>
      if decide (Category r = Some "")
      then match answer X n (Description r) with
           | Ok label =>
               let '(res, rest', n') := pass_model X (S n) rest in
               (res, with_Category (strip label) r :: rest', n')
           | Raise e => (Raise e, r :: rest, S n)
           end
      else let '(res, rest', n') := pass_model X n rest in
           (res, r :: rest', n')
  end.

(** The body of the loop of [categorize_transactions]. *)
Definition classify_row (X : Ext) (df : nat) (ir : nat * Transaction) : M unit :=
  let* category := categorize_transaction X (Description ir.2) in
  modify_frame df (set_Category_at ir.1 category).

(** Two rows that differ at most in their Category. *)
Definition same_but_Category (r r' : Transaction) : Prop :=
  Date r' = Date r /\ Description r' = Description r /\
  Income_Expense r' = Income_Expense r /\ Amount r' = Amount r.

(** The rows before position [i] whose category is the empty text: each of
    them costs one request. *)
Definition empties_before (i : nat) (d : DataFrame) : nat :=
  length (filter (fun r => Category r = Some "") (take i d)).

(** ** Tokens made of one repeated character *)

(** [s] without its first [n] characters. *)
Fixpoint sdrop (n : nat) (s : string) : string :=
  match n, s with
  | O, _ => s
  | S _, EmptyString => EmptyString
  | S k, String _ rest => sdrop k rest
  end.

(** The number of characters [c] at the head of [s]. *)
Fixpoint run (c : Ascii.ascii) (s : string) : nat :=
  match s with
  | EmptyString => O
  | String d rest => if Ascii.ascii_dec c d then S (run c rest) else O
  end.

(** The token made of [n] characters [c]. *)
Fixpoint srep (n : nat) (c : Ascii.ascii) : string :=
  match n with
  | O => EmptyString
  | S k => String c (srep k c)
  end.

(** No character of [s] is [c]. *)
Fixpoint free_of (c : Ascii.ascii) (s : string) : bool :=
  match s with
  | EmptyString => true
  | String d rest => (if Ascii.ascii_dec c d then false else true) && free_of c rest
  end.

Definition star : Ascii.ascii := Ascii.ascii_of_nat 42.
Definition hash : Ascii.ascii := Ascii.ascii_of_nat 35.
Definition line_feed : Ascii.ascii := Ascii.ascii_of_nat 10.

(** ** Substitution, told by its result *)

(** [s] starts with [t]. *)
Definition starts_with (t s : string) : Prop := exists b, s = t +:+ b.

(** [r] is [s] with [new] in the place of every [old], the text read from
    the left: where [old] starts, [new] stands for it and the reading goes
    on after it; elsewhere the character is kept. *)
Inductive substituted (old new : string) : string -> string -> Prop :=
| sub_end : substituted old new "" ""
| sub_hit (b r : string) :
    substituted old new b r ->
    substituted old new (old +:+ b) (new +:+ r)
| sub_copy (c : Ascii.ascii) (b r : string) :
    ~ starts_with old (String c b) ->
    substituted old new b r ->
    substituted old new (String c b) (String c r).

(** [m] is [text] after the three substitutions of the renderer, one after
    the other: the bold marker by nothing, the heading marker by the opening
    heading tag, the line feed by the line-break tag. *)
Definition rendered (text m : string) : Prop :=
  exists s1 s2,
    substituted "**" "" text s1 /\
    substituted "###" "<h3>" s1 s2 /\
    substituted nl "<br>" s2 m.

(** * Sample frames, worlds and services *)

(** ** Sample kernels *)

(** Two's complement on 64 bits. *)
Definition wrap64 (z : Z) : Z := (z + 2 ^ 63) mod 2 ^ 64 - 2 ^ 63.

Definition is_int (x : Number) : bool :=
  match x with
  | Int64 _ => true
  | Float64 _ => false
  end.

Definition float_of_Z (z : Z) : float :=
  match z with
  | Z0 => 0%float
  | Zpos p => of_uint63 (Uint63Axioms.of_Z (Zpos p))
  | Zneg p => PrimFloat.opp (of_uint63 (Uint63Axioms.of_Z (Zpos p)))
  end.

Definition float_value (x : Number) : float :=
  match x with
  | Float64 f => f
  | Int64 z => float_of_Z z
  end.

(** What [Series.sum] computes for fewer than eight finite values: the
    integers of an integer column are added with wrap-around, floats one
    after the other from zero, each addition rounded. *)
Definition running_sum (xs : list Number) : Number :=
  if forallb is_int xs
  then Int64 (wrap64 (int_sum xs))
  else Float64 (foldl PrimFloat.add 0%float (float_value <$> xs)).

(** One step of the compensated summation of the grouped sum: the running
    sum and the error carried over. *)
Definition kahan_step (st : float * float) (v : float) : float * float :=
  let y := PrimFloat.sub v st.2 in
  let t := PrimFloat.add st.1 y in
  (t, PrimFloat.sub (PrimFloat.sub t st.1) y).

(** What the grouped sum computes for finite values: the integers of an
    integer column are added with wrap-around, floats with compensation. *)
Definition compensated_sum (xs : list Number) : Number :=
  if forallb is_int xs
  then Int64 (wrap64 (int_sum xs))
  else Float64 (foldl kahan_step (0%float, 0%float) (float_value <$> xs)).1.

(** Two decimals for an integer; the samples print no float. *)
Definition show_number (x : Number) : string :=
  match x with
  | Int64 z => pretty z +:+ ".00"
  | Float64 _ => "nan"
  end.

(** ** Frames, worlds and services *)

(** Two Expense rows, the second with a missing Category. *)
Definition c1_frame : DataFrame :=
  [mkTransaction "2024-09-02" "Grocery shopping at Coles" (Some "Groceries") "Expense" (Int64 20050);
   mkTransaction "2024-09-03" "Sydney Water Bill" None "Expense" (Int64 8075)].

(** Every Category present, one of them the empty text. *)
Definition c1_keyed_frame : DataFrame :=
  [mkTransaction "2024-09-01" "Salary from ABC Corp" (Some "Income") "Income" (Int64 600000);
   mkTransaction "2024-09-02" "Grocery shopping at Coles" (Some "Groceries") "Expense" (Int64 20050);
   mkTransaction "2024-09-03" "Sydney Water Bill" (Some "") "Expense" (Int64 8075);
   mkTransaction "2024-09-06" "Woolworths" (Some "Groceries") "Expense" (Int64 1000)].

(** A Category present, one empty and one missing. *)
Definition c2_frame : DataFrame :=
  [mkTransaction "2024-09-02" "Grocery shopping at Coles" (Some "Groceries") "Expense" (Int64 20050);
   mkTransaction "2024-09-03" "Sydney Water Bill" (Some "") "Expense" (Int64 8075);
   mkTransaction "2024-09-04" "Netflix Subscription" None "Expense" (Int64 1399)].


(** A file with two rows, the second with a blank Category field;
    [c1_frame] is the frame [pd.read_csv] makes of it. *)
Definition csv_text : string :=
  "Date,Description,Category,Income/Expense,Amount" +:+ nl +:+
  "2024-09-02,Grocery shopping at Coles,Groceries,Expense,20050" +:+ nl +:+
  "2024-09-03,Sydney Water Bill,,Expense,8075" +:+ nl.

(** The records of a sheet with the same two rows: the blank cell is the
    empty text. *)
Definition sheet_frame : DataFrame :=
  [mkTransaction "2024-09-02" "Grocery shopping at Coles" (Some "Groceries") "Expense" (Int64 20050);
   mkTransaction "2024-09-03" "Sydney Water Bill" (Some "") "Expense" (Int64 8075)].

(** A sheet service that holds the given records: the key file must be
    named and exist, and the address of the sheet must be given. *)
Definition sample_sheet (records : DataFrame) (fs : gmap string string)
    (keyfile url : option string) : Res DataFrame :=
  match keyfile with
  | None => Raise (mkExn "TypeError" "expected str, bytes or os.PathLike object, not NoneType")
  | Some path =>
      match fs !! path, url with
      | None, _ => Raise (mkExn "FileNotFoundError" "No such file or directory")
      | Some _, None => Raise (mkExn "TypeError" "expected string or bytes-like object")
      | Some _, Some _ => Ok records
      end
  end.

(** Libraries and services that always succeed. *)
Definition quiet_ext : Ext :=
  mkExt ∅ (fun _ => Ok []) (sample_sheet sheet_frame)
        (fun _ _ _ => Ok "Miscellaneous")
        (fun _ _ _ fs => (None, fs))
        (fun _ => "") running_sum compensated_sum show_number (fun _ => "{}").

(** A service that ends its answer with a line feed. *)
Definition newline_ext : Ext :=
  mkExt ∅ (fun _ => Ok []) (sample_sheet sheet_frame)
        (fun _ _ _ => Ok ("Bananas" +:+ nl))
        (fun _ _ _ fs => (None, fs))
        (fun _ => "") running_sum compensated_sum show_number (fun _ => "{}").

(** An engine that writes the head of the document and then reports a
    failure, as a converter that exits with an error status after it has
    opened its output. *)
Definition half_written_engine : Ext :=
  mkExt ∅ (fun _ => Ok []) (sample_sheet sheet_frame)
        (fun _ _ _ => Ok "Miscellaneous")
        (fun _ path _ fs =>
           (Some (mkExn "OSError" "wkhtmltopdf reported an error"),
            <[path := "%PDF-1.4"]> fs))
        (fun _ => "") running_sum compensated_sum show_number (fun _ => "{}").

(** An engine whose executable is not installed: it raises before writing. *)
Definition missing_engine : Ext :=
  mkExt ∅ (fun _ => Ok []) (sample_sheet sheet_frame)
        (fun _ _ _ => Ok "Miscellaneous")
        (fun _ _ _ fs => (Some no_engine, fs))
        (fun _ => "") running_sum compensated_sum show_number (fun _ => "{}").

(** No variable, no file, no frame. *)
Definition bare_world : World := mkWorld ∅ ∅ None ∅ 0 [] ∅.

Definition sheet_world : World :=
  mkWorld {["USE_GOOGLE_SHEETS" := "True"]} ∅ None ∅ 0 [] ∅.

Definition c9_world : World :=
  mkWorld ∅ ∅ (Some "key") {[0%nat := c1_keyed_frame]} 0 [] ∅.

Definition c2_world : World :=
  mkWorld ∅ ∅ (Some "key") {[0%nat := c2_frame]} 0 [] ∅.


(** A row flagged in lower case. *)
Definition lowercase_flag_row : Transaction :=
  mkTransaction "2024-09-07" "Coffee" (Some "Dining Out") "expense" (Int64 450).

(** The rows whose Category is the empty text, in row order. *)
Definition empty_rows (d : DataFrame) : DataFrame :=
  filter (fun r => Category r = Some "") d.

(** The requests a pass sends for the given rows, one per row. *)
Definition classify_events (rows : DataFrame) : list Event :=
  (fun r => EvChat "gpt-4o-mini" (classifier_request (Description r))) <$> rows.

(** Two rows waiting for a category. *)
Definition two_empty_frame : DataFrame :=
  [mkTransaction "2024-09-03" "Sydney Water Bill" (Some "") "Expense" (Int64 8075);
   mkTransaction "2024-09-04" "Netflix Subscription" (Some "") "Expense" (Int64 1399)].

Definition two_empty_world : World :=
  mkWorld ∅ ∅ (Some "key") {[0%nat := two_empty_frame]} 0 [] ∅.

Definition rate_limit : Exn := mkExn "RateLimitError" "Rate limit reached".

(** A service that answers the first request and refuses the others. *)
Definition second_fails_ext : Ext :=
  mkExt ∅ (fun _ => Ok []) (sample_sheet sheet_frame)
        (fun n _ _ => match n with O => Ok "Utilities" | S _ => Raise rate_limit end)
        (fun _ _ _ fs => (None, fs))
        (fun _ => "") running_sum compensated_sum show_number (fun _ => "{}").

(** The frame with a missing Category, loaded. *)
Definition c1_world : World :=
  mkWorld ∅ ∅ (Some "key") {[0%nat := c1_frame]} 0 [] ∅.

(** The sixteen ways of writing the word true in upper and lower case. *)
Definition true_spellings : list string :=
  ["true"; "truE"; "trUe"; "trUE"; "tRue"; "tRuE"; "tRUe"; "tRUE";
   "True"; "TruE"; "TrUe"; "TrUE"; "TRue"; "TRuE"; "TRUe"; "TRUE"].

(** The environment after [load_dotenv]: the variables already set win. *)
Definition merged_environ (X : Ext) (w : World) : gmap string string :=
  environ w ∪ dotenv X.

(** A world with a file at the expected path and a key variable set to the
    empty text. *)
Definition csv_world : World :=
  mkWorld {["OPENAI_API_KEY" := ""]} {[csv_path := csv_text]} None ∅ 0 [] ∅.

(** Libraries for that world: a [.env] file with a key, a parser that yields
    [c1_frame]. *)
Definition csv_ext : Ext :=
  mkExt {["OPENAI_API_KEY" := "sk-test"]} (fun _ => Ok c1_frame) (sample_sheet sheet_frame)
        (fun _ _ _ => Ok " Groceries ")
        (fun _ path _ fs => (None, <[path := "%PDF-1.4 report"]> fs))
        (fun _ => "table") running_sum compensated_sum show_number (fun _ => "{}").

Definition parse_error : Exn := mkExn "ParserError" "Error tokenizing data".

(** The same with a parser that rejects the file. *)
Definition bad_csv_ext : Ext :=
  mkExt ∅ (fun _ => Raise parse_error) (sample_sheet sheet_frame)
        (fun _ _ _ => Ok "Groceries")
        (fun _ _ _ fs => (None, fs))
        (fun _ => "table") running_sum compensated_sum show_number (fun _ => "{}").

(** A world whose key variable is set, beside a [.env] file with another. *)
Definition keyed_world : World :=
  mkWorld {["OPENAI_API_KEY" := "sk-env"]}
          {[csv_path := csv_text]} None ∅ 0 [] ∅.

(** The two messages of [generate_personalized_advice]. *)
Definition advice_request (X : Ext) (d : DataFrame) (age lifestyle hobbies : PyVal)
    : list (string * string) :=
  [("system", "You are a helpful financial advisor.");
   ("user", advice_prompt X d age lifestyle hobbies)].

(** The world the cells after the setup start from: the merged environment,
    the key in place and the installation in the trace. *)
Definition after_setup (X : Ext) (w : World) (k : string) : World :=
  mkWorld (merged_environ X w) (files w) (Some k) (heap w) (requests w)
          (trace w ++ [install_event]) (bare w).

(** The key is set and there is no file. *)
Definition no_file_world : World :=
  mkWorld {["OPENAI_API_KEY" := "sk-env"]} ∅ None ∅ 0 [] ∅.

(** A sheet that has its header row and no record. *)
Definition empty_sheet_ext : Ext :=
  mkExt ∅ (fun _ => Ok []) (sample_sheet [])
        (fun _ _ _ => Ok "Utilities")
        (fun _ path _ fs => (None, <[path := "%PDF-1.4 report"]> fs))
        (fun _ => "table") running_sum compensated_sum show_number (fun _ => "{}").

(** The remote sheet selected, its key file in place. *)
Definition sheet_run_world : World :=
  mkWorld {["OPENAI_API_KEY" := "sk-env"; "USE_GOOGLE_SHEETS" := "true";
            "GOOGLE_APPLICATION_CREDENTIALS" := "credentials.json";
            "DUMMY_DATA_SPREADSHEET" := "https://sheet"]}
          {["credentials.json" := "{}"]} None ∅ 0 [] ∅.

(** A sheet with two rows to classify and a service that refuses the second
    request. *)
Definition failing_run_ext : Ext :=
  mkExt ∅ (fun _ => Ok []) (sample_sheet two_empty_frame)
        (fun n _ _ => match n with O => Ok "Utilities" | S _ => Raise rate_limit end)
        (fun _ path _ fs => (None, <[path := "%PDF-1.4 report"]> fs))
        (fun _ => "table") running_sum compensated_sum show_number (fun _ => "{}").

(** The flag and the address of the sheet written in the [.env] file only,
    the key file not named. *)
Definition sheet_env_ext : Ext :=
  mkExt {["USE_GOOGLE_SHEETS" := "TRUE"; "DUMMY_DATA_SPREADSHEET" := "https://sheet"]}
        (fun _ => Ok []) (sample_sheet sheet_frame)
        (fun _ _ _ => Ok "Groceries")
        (fun _ _ _ fs => (None, fs))
        (fun _ => "table") running_sum compensated_sum show_number (fun _ => "{}").



(** The sheet and the file of the same two rows, each with its loader. *)
Definition sheet_ext : Ext :=
  mkExt ∅ (fun _ => Ok c1_frame) (sample_sheet sheet_frame)
        (fun _ _ _ => Ok "Utilities")
        (fun _ path _ fs => (None, <[path := "%PDF-1.4 report"]> fs))
        (fun _ => "table") running_sum compensated_sum show_number (fun _ => "{}").

Definition file_run_world : World :=
  mkWorld {["OPENAI_API_KEY" := "sk-env"]} {[csv_path := csv_text]} (Some "sk-env") ∅ 0 [] ∅.

Definition sheet_loaded_world : World :=
  mkWorld {["OPENAI_API_KEY" := "sk-env"; "USE_GOOGLE_SHEETS" := "true";
            "GOOGLE_APPLICATION_CREDENTIALS" := "credentials.json";
            "DUMMY_DATA_SPREADSHEET" := "https://sheet"]}
          {["credentials.json" := "{}"]} (Some "sk-env") ∅ 0 [] ∅.
(** * Properties *)

(** ** The Aggregator *)

Lemma amounts_where_spec (flag : string) (df : DataFrame) :
  Amount <$> select_flag flag df = spec_amounts flag df.
Proof.
  unfold select_flag.
  induction df as [|r df IH]; [reflexivity|].
  cbn [spec_amounts]. rewrite filter_cons.
  destruct (decide (Income_Expense r = flag)).
  - rewrite fmap_cons, IH. reflexivity.
  - exact IH.
Qed.






Lemma filter_absent (c : string) (df : DataFrame) :
  ~ Exists (fun r => Category r = Some c) df ->
  filter (fun r => Category r = Some c) df = [].
Proof.
  induction df as [|r df IH]; intros Hno; [reflexivity|].
  rewrite filter_cons, decide_False by (intros H; apply Hno; left; exact H).
  apply IH. intros H. apply Hno. right. exact H.
Qed.

(** The group of a category: absent when no row carries it, else the
    amounts of the rows that do, in row order. *)
Lemma groupby_lookup_from (c : string) (df : DataFrame) :
  forall acc : gmap string (list Number),
    foldl group_step acc df !! c =
    if decide (Exists (fun r => Category r = Some c) df)
    then Some (default [] (acc !! c) ++
               (Amount <$> filter (fun r => Category r = Some c) df))
    else acc !! c.
Proof.
  induction df as [|r df IH]; intros acc.
  - cbn [foldl]. destruct (decide _) as [H|H]; [inversion H|reflexivity].
  - cbn [foldl]. rewrite IH, filter_cons. unfold group_step.
    destruct (decide (Category r = Some c)) as [Hr|Hr].
    + rewrite Hr, lookup_insert_eq. cbn [default].
      rewrite (decide_True (P := Exists _ (r :: df))) by (left; exact Hr).
      rewrite fmap_cons.
      destruct (decide (Exists (fun r0 => Category r0 = Some c) df)) as [He|He].
      * unfold id. rewrite <- app_assoc. reflexivity.
      * rewrite (filter_absent c df He). reflexivity.
    + assert (Hacc : match Category r with
                     | Some c0 => <[c0:=default [] (acc !! c0) ++ [Amount r]]> acc
                     | None => acc
                     end !! c = acc !! c).
      { destruct (Category r) as [c0|]; [|reflexivity].
        apply lookup_insert_ne. congruence. }
      rewrite Hacc.
      destruct (decide (Exists (fun r0 => Category r0 = Some c) df)) as [He|He].
      * rewrite decide_True by (right; exact He). reflexivity.
      * rewrite decide_False; [reflexivity|].
        intros H; inversion H; subst; contradiction.
Qed.

Lemma category_amounts_select (c : string) (df : DataFrame) :
  Amount <$> filter (fun r => Category r = Some c) (select_flag "Expense" df) =
  spec_category_amounts c df.
Proof.
  unfold select_flag. induction df as [|r df IH]; [reflexivity|].
  cbn [spec_category_amounts]. rewrite filter_cons.
  destruct (decide (Income_Expense r = "Expense")) as [He|He].
  - rewrite filter_cons.
    destruct (decide (Category r = Some c)) as [Hc|Hc].
    + rewrite decide_True by (split; assumption). rewrite fmap_cons, IH. reflexivity.
    + rewrite decide_False by (intros [_ H]; contradiction). exact IH.
  - rewrite decide_False by (intros [H _]; contradiction). exact IH.
Qed.

Lemma Exists_select (c : string) (df : DataFrame) :
  Exists (fun r => Category r = Some c) (select_flag "Expense" df) <->
  Exists (fun r => Income_Expense r = "Expense" /\ Category r = Some c) df.
Proof.
  unfold select_flag. rewrite !Exists_exists. split.
  - intros (r & Hin & Hc). apply list_elem_of_filter in Hin as [He Hin]. eauto.
  - intros (r & Hin & He & Hc). exists r. split; [|exact Hc].
    apply list_elem_of_filter. split; assumption.
Qed.

Lemma groupby_Category_lookup (c : string) (df : DataFrame) :
  groupby_Category (select_flag "Expense" df) !! c =
  if decide (Exists (fun r => Income_Expense r = "Expense" /\ Category r = Some c) df)
  then Some (spec_category_amounts c df) else None.
Proof.
  unfold groupby_Category.
  rewrite groupby_lookup_from, lookup_empty. cbn [default app].
  rewrite category_amounts_select.
  destruct (decide (Exists (fun r => Category r = Some c) (select_flag "Expense" df))) as [H|H].
  - rewrite decide_True by (apply Exists_select; exact H). reflexivity.
  - rewrite decide_False by (intros H'; apply H, Exists_select; exact H'). reflexivity.
Qed.

Lemma category_spending_lookup (X : Ext) (c : string) (df : DataFrame) :
  category_spending X df !! c =
  if decide (Exists (fun r => Income_Expense r = "Expense" /\ Category r = Some c) df)
  then Some (groupby_sum X (spec_category_amounts c df)) else None.
Proof.
  unfold category_spending. rewrite lookup_fmap, groupby_Category_lookup.
  destruct (decide _); reflexivity.
Qed.








(** ** The Aggregator, run twice *)

Lemma generate_financial_summary_effect (X : Ext) (df : nat) (w : World) (d : DataFrame) :
  heap w !! df = Some d ->
  heap (generate_financial_summary X df w).2 = heap w /\
  trace (generate_financial_summary X df w).2 =
    trace w ++ [EvChat "gpt-4o-mini" (summary_request X d)].
Proof.
  intros Hd.
  unfold generate_financial_summary, get_column, ChatCompletion_create, bind, emit.
  cbn. rewrite Hd. cbn.
  destruct (chat_completion X _ _ _); split; reflexivity.
Qed.

(** C9: the aggregation reads the frame and leaves it as it was; run a second
    time on the same frame it computes the same total income, the same total
    expense and the same per-category map, and sends the same figures. *)
Theorem C9_aggregator_idempotent (X : Ext) (df : nat) (w : World) (d : DataFrame) :
  heap w !! df = Some d ->
  let w1 := (generate_financial_summary X df w).2 in
  let w2 := (generate_financial_summary X df w1).2 in
  heap w1 = heap w /\ heap w2 = heap w /\
  (forall d1 d2, heap w !! df = Some d1 -> heap w1 !! df = Some d2 ->
     total_income X d2 = total_income X d1 /\
     total_spent X d2 = total_spent X d1 /\
     category_spending X d2 = category_spending X d1) /\
  exists request,
    trace w1 = trace w ++ [EvChat "gpt-4o-mini" request] /\
    trace w2 = trace w1 ++ [EvChat "gpt-4o-mini" request].
Proof.
  intros Hd w1 w2.
  destruct (generate_financial_summary_effect X df w d Hd) as [Hh1 Ht1].
  assert (Hd1 : heap w1 !! df = Some d) by (unfold w1; rewrite Hh1; exact Hd).
  destruct (generate_financial_summary_effect X df w1 d Hd1) as [Hh2 Ht2].
  split; [exact Hh1|]. split; [unfold w2; rewrite Hh2; exact Hh1|].
  split.
  - intros d1 d2 H1 H2. fold w1 in Hh1. rewrite Hh1, H1 in H2.
    injection H2 as <-. repeat split; reflexivity.
  - exists (summary_request X d). split; assumption.
Qed.

Lemma C9_aggregator_idempotent_witness :
  heap c9_world !! 0%nat = Some c1_keyed_frame /\
  heap (generate_financial_summary quiet_ext 0
          (generate_financial_summary quiet_ext 0 c9_world).2).2 = heap c9_world.
Proof.
  split; [reflexivity|].
  exact (proj1 (proj2 (C9_aggregator_idempotent quiet_ext 0 c9_world c1_keyed_frame
                         eq_refl))).
Defined.


(** ** The Data Loader *)

(** C5: when no file exists at the expected path, [load_from_csv] raises
    [FileNotFoundError]; no frame is produced, the parser is never called
    and nothing but the existence test has happened. *)
Theorem C5_missing_csv_not_found (X : Ext) (w : World) :
  files w !! csv_path = None ->
  exists w',
    load_from_csv X w = (Raise not_found, w') /\
    heap w' = heap w /\
    files w' = files w /\
    trace w' = trace w ++ [EvExists csv_path].
Proof.
  intros Hnone. eexists. split.
  - unfold load_from_csv, os_path_exists, bind, emit. cbn.
    rewrite Hnone.
    rewrite bool_decide_eq_false_2 by (intros [x Hx]; discriminate).
    cbn. reflexivity.
  - cbn. repeat split; reflexivity.
Qed.

Lemma C5_missing_csv_not_found_witness :
  files bare_world !! csv_path = None /\
  exists w',
    load_from_csv quiet_ext bare_world = (Raise not_found, w') /\
    heap w' = heap bare_world /\
    files w' = files bare_world /\
    trace w' = trace bare_world ++ [EvExists csv_path].
Proof.
  split; [reflexivity|].
  apply (C5_missing_csv_not_found quiet_ext bare_world). reflexivity.
Defined.

Lemma load_from_google_sheets_trace (X : Ext) (w : World) :
  trace (load_from_google_sheets X w).2 =
  trace w ++ [EvSheets (environ w !! "GOOGLE_APPLICATION_CREDENTIALS")
                       (environ w !! "DUMMY_DATA_SPREADSHEET")].
Proof.
  unfold load_from_google_sheets, getenv, bind, emit. cbn.
  destruct (sheet_records X _ _ _) as [[|r d]|e]; reflexivity.
Qed.

Lemma load_from_csv_trace (X : Ext) (w : World) :
  trace (load_from_csv X w).2 = trace w ++ [EvExists csv_path] \/
  trace (load_from_csv X w).2 = trace w ++ [EvExists csv_path; EvReadCsv csv_path].
Proof.
  unfold load_from_csv, os_path_exists, read_csv, bind, emit, lift_res, new_frame. cbn.
  destruct (bool_decide (is_Some (files w !! csv_path))); cbn; [|left; reflexivity].
  right. rewrite <- app_assoc. cbn.
  destruct (files w !! csv_path); [|reflexivity].
  destruct (pd_read_csv X _); reflexivity.
Qed.

(** C8: [load_data] returns the remote-sheet result when the flag selects the
    remote sheet and the local-file result otherwise, an unset flag
    included; the source it did not choose is not consulted. *)
Theorem C8_load_data_one_source (X : Ext) (w : World) :
  (selects_sheet w ->
     load_data X w = load_from_google_sheets X w /\
     exists evs, trace (load_data X w).2 = trace w ++ evs /\
                 forallb (fun ev => negb (consults_file ev)) evs = true) /\
  (~ selects_sheet w ->
     load_data X w = load_from_csv X w /\
     exists evs, trace (load_data X w).2 = trace w ++ evs /\
                 forallb (fun ev => negb (consults_sheet ev)) evs = true) /\
  (environ w !! "USE_GOOGLE_SHEETS" = None -> ~ selects_sheet w).
Proof.
  unfold selects_sheet. split; [|split].
  - intros Hsel.
    assert (Heq : load_data X w = load_from_google_sheets X w).
    { unfold load_data, getenv_default, bind. cbn.
      rewrite bool_decide_eq_true_2 by exact Hsel. reflexivity. }
    split; [exact Heq|]. rewrite Heq, load_from_google_sheets_trace.
    eexists. split; reflexivity.
  - intros Hsel.
    assert (Heq : load_data X w = load_from_csv X w).
    { unfold load_data, getenv_default, bind. cbn.
      rewrite bool_decide_eq_false_2 by exact Hsel. reflexivity. }
    split; [exact Heq|]. rewrite Heq.
    destruct (load_from_csv_trace X w) as [-> | ->];
      eexists; split; reflexivity.
  - intros ->. cbn. discriminate.
Qed.

Lemma C8_load_data_one_source_witness :
  selects_sheet sheet_world /\
  ~ selects_sheet bare_world /\
  environ bare_world !! "USE_GOOGLE_SHEETS" = None /\
  load_data quiet_ext sheet_world = load_from_google_sheets quiet_ext sheet_world /\
  load_data quiet_ext bare_world = load_from_csv quiet_ext bare_world.
Proof.
  assert (Hs : selects_sheet sheet_world) by reflexivity.
  assert (Hn : ~ selects_sheet bare_world) by (vm_compute; discriminate).
  split; [exact Hs|]. split; [exact Hn|]. split; [reflexivity|].
  split.
  - exact (proj1 (proj1 (C8_load_data_one_source quiet_ext sheet_world) Hs)).
  - exact (proj1 (proj1 (proj2 (C8_load_data_one_source quiet_ext bare_world)) Hn)).
Defined.

(** ** The setup cell *)

(** C6: when the API key is neither in the process environment nor in the
    [.env] file, running the notebook raises the [ValueError] of the setup
    cell; no source is consulted, no request is sent, no frame exists, no
    file is touched and nothing is rendered: the only thing that has happened
    is the package installation of the first cell. *)
Theorem C6_missing_key_fails_first (X : Ext) (w : World) :
  environ w !! "OPENAI_API_KEY" = None ->
  dotenv X !! "OPENAI_API_KEY" = None ->
  exists w',
    run_all X w = (Raise key_error, w') /\
    trace w' = trace w ++ [install_event] /\
    requests w' = requests w /\
    heap w' = heap w /\
    files w' = files w.
Proof.
  intros Henv Hdot. eexists. split.
  - unfold run_all, cell_install, cell_setup, load_dotenv, getenv, set_api_key,
      bind, emit. cbn.
    assert (Hk : (environ w ∪ dotenv X) !! "OPENAI_API_KEY" = None).
    { apply lookup_union_None. split; assumption. }
    rewrite Hk. cbn. reflexivity.
  - cbn. repeat split; reflexivity.
Qed.

Lemma C6_missing_key_fails_first_witness :
  environ bare_world !! "OPENAI_API_KEY" = None /\
  dotenv quiet_ext !! "OPENAI_API_KEY" = None /\
  exists w',
    run_all quiet_ext bare_world = (Raise key_error, w') /\
    trace w' = trace bare_world ++ [install_event] /\
    requests w' = requests bare_world /\
    heap w' = heap bare_world /\
    files w' = files bare_world.
Proof.
  split; [reflexivity|]. split; [reflexivity|].
  apply (C6_missing_key_fails_first quiet_ext bare_world); reflexivity.
Defined.

(** ** The Report Renderer: failure of the rendering engine *)

(** C7, as stated, fails: the notebook hands the output path to the engine
    and does nothing after a failure, so what the engine wrote before
    failing stays on disk. *)
Lemma C7_counterexample :
  files bare_world !! "financial_report.pdf" = None /\
  exists e w',
    create_pdf_report half_written_engine "summary" "advice"
                      "financial_report.pdf" bare_world = (Raise e, w') /\
    files w' !! "financial_report.pdf" = Some "%PDF-1.4".
Proof.
  split; [reflexivity|].
  eexists. eexists. split; [vm_compute; reflexivity|]. reflexivity.
Qed.

(** C7, amended: when the engine call of [create_pdf_report] raises, the
    exception leaves [create_pdf_report] unhandled and the message of
    success is not printed; the files are exactly as the failed engine call
    left them, so no output file is created or overwritten when the engine
    fails without writing; the notebook itself removes or restores nothing. *)
Theorem C7_render_failure_is_fatal (X : Ext) (summary advice output_path : string)
    (w : World) (e : Exn) (fs : gmap string string) :
  pdfkit_engine X (html_content summary advice) output_path pdf_options (files w)
    = (Some e, fs) ->
  exists w',
    create_pdf_report X summary advice output_path w = (Raise e, w') /\
    trace w' = trace w ++ [EvPdf (html_content summary advice) output_path pdf_options] /\
    files w' = fs /\
    (fs = files w -> files w' !! output_path = files w !! output_path).
Proof.
  intros Heng. eexists. split.
  - unfold create_pdf_report, pdfkit_from_string, bind, emit. cbn.
    rewrite Heng. reflexivity.
  - cbn. split; [reflexivity|]. split; [reflexivity|].
    intros ->. reflexivity.
Qed.

Lemma C7_render_failure_is_fatal_witness :
  pdfkit_engine missing_engine (html_content "summary" "advice")
                "financial_report.pdf" pdf_options (files bare_world)
    = (Some no_engine, files bare_world) /\
  exists w',
    create_pdf_report missing_engine "summary" "advice" "financial_report.pdf"
                      bare_world = (Raise no_engine, w') /\
    trace w' = trace bare_world ++
               [EvPdf (html_content "summary" "advice") "financial_report.pdf" pdf_options] /\
    files w' = files bare_world /\
    (files bare_world = files bare_world ->
     files w' !! "financial_report.pdf" = files bare_world !! "financial_report.pdf").
Proof.
  split; [reflexivity|].
  apply (C7_render_failure_is_fatal missing_engine "summary" "advice"
           "financial_report.pdf" bare_world no_engine (files bare_world)).
  reflexivity.
Defined.


(** ** The Transaction Classifier *)

Lemma classify_row_run (X : Ext) (df i : nat) (r : Transaction) (w : World) :
  classify_row X df (i, r) w =
  match answer X (requests w) (Description r) with
  | Ok label =>
      (Ok tt,
       mkWorld (environ w) (files w) (api_key w)
               (alter (set_Category_at i (strip label)) df (heap w))
               (S (requests w))
               (trace w ++ [EvChat "gpt-4o-mini" (classifier_request (Description r))])
               (bare w))
  | Raise e =>
      (Raise e,
       mkWorld (environ w) (files w) (api_key w) (heap w) (S (requests w))
               (trace w ++ [EvChat "gpt-4o-mini" (classifier_request (Description r))])
               (bare w))
  end.
Proof.
  unfold classify_row, categorize_transaction, ChatCompletion_create,
    modify_frame, bind, emit, ret, answer. cbn.
  destruct (chat_completion X _ _ _); reflexivity.
Qed.

Lemma categorize_loop (X : Ext) (df : nat) (rest : DataFrame) :
  forall (pre : DataFrame) (w : World),
    heap w !! df = Some (pre ++ rest) ->
    let out := for_each
                 (filter (fun ir : nat * Transaction => Category ir.2 = Some "")
                         (imap (fun i r => ((length pre + i)%nat, r)) rest))
                 (classify_row X df) w in
    let m := pass_model X (requests w) rest in
    out.1 = m.1.1 /\
    heap out.2 = <[df := pre ++ m.1.2]> (heap w) /\
    requests out.2 = m.2 /\
    files out.2 = files w /\
    environ out.2 = environ w.
Proof.
  induction rest as [|r rest IH]; intros pre w Hd.
  - cbn. rewrite insert_id by exact Hd. repeat split; reflexivity.
  - rewrite imap_cons, filter_cons. cbn [pass_model snd].
    assert (Hext : imap ((fun i r0 => ((length pre + i)%nat, r0)) ∘ S) rest =
                   imap (fun i (r0 : Transaction) =>
                           ((length (pre ++ [r]) + i)%nat, r0)) rest).
    { apply imap_ext. intros i x _. cbn. rewrite length_app. cbn. f_equal. lia. }
    destruct (decide (Category r = Some "")) as [He|He].
    + cbn [for_each]. unfold bind. rewrite classify_row_run.
      destruct (answer X (requests w) (Description r)) as [label|e].
      * set (r' := with_Category (strip label) r).
        set (w1 := mkWorld _ _ _ _ _ _ _).
        assert (Hd1 : heap w1 !! df = Some ((pre ++ [r']) ++ rest)).
        { unfold w1. cbn. rewrite lookup_alter_eq, Hd. cbn. f_equal.
          unfold set_Category_at. rewrite Nat.add_0_r.
          rewrite <- (Nat.add_0_r (length pre)), alter_app_r.
          cbn. rewrite <- app_assoc. reflexivity. }
        specialize (IH (pre ++ [r']) w1 Hd1).
        rewrite Hext.
        assert (Hlen : length (pre ++ [r]) = length (pre ++ [r'])).
        { rewrite !length_app. reflexivity. }
        rewrite Hlen. cbn zeta in IH.
        change (requests w1) with (S (requests w)) in IH.
        destruct (pass_model X (S (requests w)) rest) as [[res rest'] n'].
        cbn in IH |- *. destruct IH as (H1 & H2 & H3 & H4 & H5).
        split; [exact H1|]. split.
        { rewrite H2. unfold w1. cbn. rewrite insert_alter_eq.
          rewrite <- app_assoc. reflexivity. }
        repeat split; assumption.
      * cbn. rewrite insert_id by exact Hd. repeat split; reflexivity.
    + assert (Hd1 : heap w !! df = Some ((pre ++ [r]) ++ rest)).
      { rewrite <- app_assoc. exact Hd. }
      specialize (IH (pre ++ [r]) w Hd1). rewrite Hext. cbn zeta in IH.
      destruct (pass_model X (requests w) rest) as [[res rest'] n'].
      cbn in IH |- *. destruct IH as (H1 & H2 & H3 & H4 & H5).
      split; [exact H1|]. split.
      { rewrite H2, <- app_assoc. reflexivity. }
      repeat split; assumption.
Qed.

Lemma categorize_transactions_loop (X : Ext) (df : nat) (w : World) (d : DataFrame) :
  heap w !! df = Some d ->
  categorize_transactions X df w =
  match for_each
          (filter (fun ir : nat * Transaction => Category ir.2 = Some "")
                  (imap (fun i r => ((length (@nil Transaction) + i)%nat, r)) d))
          (classify_row X df) w with
  | (Ok _, w') => (Ok df, w')
  | (Raise e, w') => (Raise e, w')
  end.
Proof.
  intros Hd. unfold categorize_transactions, get_column, bind. rewrite Hd.
  reflexivity.
Qed.

(** [categorize_transactions] does what [pass_model] tells. *)
Lemma categorize_transactions_model (X : Ext) (df : nat) (w : World) (d : DataFrame) :
  heap w !! df = Some d ->
  (categorize_transactions X df w).1 =
    match (pass_model X (requests w) d).1.1 with
    | Ok _ => Ok df
    | Raise e => Raise e
    end /\
  heap (categorize_transactions X df w).2 =
    <[df := (pass_model X (requests w) d).1.2]> (heap w) /\
  requests (categorize_transactions X df w).2 = (pass_model X (requests w) d).2 /\
  files (categorize_transactions X df w).2 = files w /\
  environ (categorize_transactions X df w).2 = environ w.
Proof.
  intros Hd.
  pose proof (categorize_loop X df d [] w Hd) as Hloop.
  cbn zeta in Hloop. rewrite app_nil_l in Hloop.
  rewrite (categorize_transactions_loop X df w d Hd).
  destruct (for_each _ (classify_row X df) w) as [res w'].
  cbn [fst snd] in Hloop. destruct Hloop as (H1 & H2 & H3 & H4 & H5).
  rewrite <- H1.
  destruct res; cbn [fst snd]; repeat split; assumption.
Qed.

Lemma pass_model_frame (X : Ext) (d : DataFrame) :
  forall n, Forall2 same_but_Category d (pass_model X n d).1.2.
Proof.
  induction d as [|r rest IH]; intros n; cbn [pass_model].
  - constructor.
  - assert (Hrefl : forall x, same_but_Category x x) by (intros x; repeat split).
    destruct (decide (Category r = Some "")) as [He|He].
    + destruct (answer X n (Description r)) as [label|e].
      * specialize (IH (S n)).
        destruct (pass_model X (S n) rest) as [[res rest'] n']. cbn in *.
        constructor; [repeat split|exact IH].
      * cbn. apply Forall2_same_length_lookup. split; [reflexivity|].
        intros i x y Hx Hy. rewrite Hx in Hy. injection Hy as <-. apply Hrefl.
    + specialize (IH n).
      destruct (pass_model X n rest) as [[res rest'] n']. cbn in *.
      constructor; [apply Hrefl|exact IH].
Qed.

Lemma pass_model_rows (X : Ext) (d : DataFrame) :
  forall n u d' n', pass_model X n d = (Ok u, d', n') ->
  forall i r, d !! i = Some r ->
  exists r', d' !! i = Some r' /\
    (Category r <> Some "" -> r' = r) /\
    (Category r = Some "" ->
     exists label,
       answer X (n + empties_before i d) (Description r) = Ok label /\
       r' = with_Category (strip label) r).
Proof.
  unfold empties_before.
  induction d as [|r0 rest IH]; intros n u d' n' Hm i r Hi; [discriminate|].
  cbn [pass_model] in Hm.
  destruct (decide (Category r0 = Some "")) as [He|He].
  - destruct (answer X n (Description r0)) as [label|e] eqn:Hans; [|discriminate].
    destruct (pass_model X (S n) rest) as [[res rest'] m] eqn:Hrest.
    injection Hm as -> <- <-.
    destruct i as [|j]; cbn in Hi.
    + injection Hi as <-. eexists. split; [reflexivity|]. split; [contradiction|].
      intros _. exists label. cbn. rewrite Nat.add_0_r.
      split; [exact Hans|reflexivity].
    + destruct (IH (S n) u rest' m Hrest j r Hi) as (r' & Hr' & Hne & Heq).
      exists r'. split; [exact Hr'|]. split; [exact Hne|].
      intros Hc. destruct (Heq Hc) as (lbl & Hl & ->). exists lbl.
      change (take (S j) (r0 :: rest)) with (r0 :: take j rest).
      rewrite filter_cons, decide_True by exact He. cbn [length].
      rewrite Nat.add_succ_r. split; [exact Hl|reflexivity].
  - destruct (pass_model X n rest) as [[res rest'] m] eqn:Hrest.
    injection Hm as -> <- <-.
    destruct i as [|j]; cbn in Hi.
    + injection Hi as <-. eexists. split; [reflexivity|]. split; [reflexivity|].
      contradiction.
    + destruct (IH n u rest' m Hrest j r Hi) as (r' & Hr' & Hne & Heq).
      exists r'. split; [exact Hr'|]. split; [exact Hne|].
      intros Hc. destruct (Heq Hc) as (lbl & Hl & ->). exists lbl.
      change (take (S j) (r0 :: rest)) with (r0 :: take j rest).
      rewrite filter_cons, decide_False by exact He.
      split; [exact Hl|reflexivity].
Qed.

Lemma pass_model_succeeds (X : Ext) (d : DataFrame) :
  (forall n description, exists label, answer X n description = Ok label) ->
  forall n, (pass_model X n d).1.1 = Ok tt.
Proof.
  intros Hall. induction d as [|r rest IH]; intros n; cbn [pass_model]; [reflexivity|].
  destruct (decide (Category r = Some "")) as [He|He].
  - destruct (Hall n (Description r)) as [label ->].
    specialize (IH (S n)). destruct (pass_model X (S n) rest) as [[res rest'] m].
    exact IH.
  - specialize (IH n). destruct (pass_model X n rest) as [[res rest'] m].
    exact IH.
Qed.

Lemma append_cons (c : Ascii.ascii) (a b : string) :
  String c a +:+ b = String c (a +:+ b).
Proof. reflexivity. Qed.

Lemma append_empty (b : string) : "" +:+ b = b.
Proof. reflexivity. Qed.

(** A text is empty, or starts with no white space, or starts with a
    white-space character of one, two or three bytes. *)
Lemma space_ind (P : string -> Prop) :
  P "" ->
  (forall s, s <> "" -> space_width s = 0%nat -> P s) ->
  (forall a s, ascii_space a = true -> P s -> P (String a s)) ->
  (forall a b s, ascii_space a = false -> two_byte_space a b = true ->
                 P s -> P (String a (String b s))) ->
  (forall a b c s, ascii_space a = false -> two_byte_space a b = false ->
                   three_byte_space a b c = true ->
                   P s -> P (String a (String b (String c s)))) ->
  forall s, P s.
Proof.
  intros Hnil Hnone H1 H2 H3 s.
  assert (Hall : forall n s, (String.length s <= n)%nat -> P s).
  { clear s. induction n as [|n IH]; intros s Hlen.
    - destruct s; [exact Hnil|cbn in Hlen; lia].
    - destruct s as [|a rest1]; [exact Hnil|].
      cbn [String.length] in Hlen.
      destruct (ascii_space a) eqn:Ha.
      { apply H1; [exact Ha|]. apply IH. lia. }
      destruct rest1 as [|b rest2].
      { apply Hnone; [discriminate|]. cbn [space_width]. rewrite Ha. reflexivity. }
      cbn [String.length] in Hlen.
      destruct (two_byte_space a b) eqn:Hb.
      { apply H2; [exact Ha|exact Hb|]. apply IH. lia. }
      destruct rest2 as [|c rest3].
      { apply Hnone; [discriminate|]. cbn [space_width]. rewrite Ha, Hb. reflexivity. }
      cbn [String.length] in Hlen.
      destruct (three_byte_space a b c) eqn:Hc.
      { apply H3; [exact Ha|exact Hb|exact Hc|]. apply IH. lia. }
      apply Hnone; [discriminate|]. cbn [space_width]. rewrite Ha, Hb, Hc. reflexivity. }
  apply (Hall (String.length s)). reflexivity.
Qed.

(** A text that starts with no white space is not blank and [lstrip] leaves
    it as it is. *)
Lemma no_space_start (s : string) :
  s <> "" -> space_width s = 0%nat -> blank s = false /\ lstrip s = s.
Proof.
  intros Hne Hw.
  destruct s as [|a [|b [|c rest]]]; [contradiction| | |];
    cbn [space_width blank lstrip] in *;
    destruct (ascii_space a); try discriminate;
    try (destruct (two_byte_space a b); try discriminate);
    try (destruct (three_byte_space a b c); try discriminate);
    split; reflexivity.
Qed.

Lemma lstrip_spec (s : string) :
  exists lead, s = lead +:+ lstrip s /\ blank lead = true.
Proof.
  induction s as [| s Hne Hw | a s Ha IH | a b s Ha Hb IH | a b c s Ha Hb Hc IH]
    using space_ind.
  - exists "". split; reflexivity.
  - exists "". rewrite (proj2 (no_space_start s Hne Hw)). split; reflexivity.
  - destruct IH as (lead & Hs & Hl). exists (String a lead).
    cbn [lstrip blank]. rewrite Ha, append_cons, <- Hs. split; [reflexivity|exact Hl].
  - destruct IH as (lead & Hs & Hl). exists (String a (String b lead)).
    cbn [lstrip blank]. rewrite Ha, Hb, !append_cons, <- Hs.
    split; [reflexivity|exact Hl].
  - destruct IH as (lead & Hs & Hl). exists (String a (String b (String c lead))).
    cbn [lstrip blank]. rewrite Ha, Hb, Hc, !append_cons, <- Hs.
    split; [reflexivity|exact Hl].
Qed.

(** What [lstrip] leaves starts with no white space. *)
Lemma lstrip_start (s : string) : space_width (lstrip s) = 0%nat.
Proof.
  induction s as [| s Hne Hw | a s Ha IH | a b s Ha Hb IH | a b c s Ha Hb Hc IH]
    using space_ind.
  - reflexivity.
  - rewrite (proj2 (no_space_start s Hne Hw)). exact Hw.
  - cbn [lstrip]. rewrite Ha. exact IH.
  - cbn [lstrip]. rewrite Ha, Hb. exact IH.
  - cbn [lstrip]. rewrite Ha, Hb, Hc. exact IH.
Qed.

Lemma blank_app (s t : string) :
  blank s = true -> blank t = true -> blank (s +:+ t) = true.
Proof.
  intros Hs Ht.
  induction s as [| s Hne Hw | a s Ha IH | a b s Ha Hb IH | a b c s Ha Hb Hc IH]
    using space_ind.
  - exact Ht.
  - rewrite (proj1 (no_space_start s Hne Hw)) in Hs. discriminate.
  - rewrite append_cons. cbn [blank] in *. rewrite Ha in *. exact (IH Hs).
  - rewrite !append_cons. cbn [blank] in *. rewrite Ha, Hb in *. exact (IH Hs).
  - rewrite !append_cons. cbn [blank] in *. rewrite Ha, Hb, Hc in *. exact (IH Hs).
Qed.

(** A text that starts with a white-space character still does when it is
    continued. *)
Lemma space_width_app (s t : string) :
  space_width s <> 0%nat -> space_width (s +:+ t) = space_width s.
Proof.
  intros Hw.
  destruct s as [|a [|b [|c rest]]]; [contradiction| | |];
    rewrite ?append_cons, ?append_empty; cbn [space_width] in *;
    destruct (ascii_space a); try reflexivity;
    try (exfalso; apply Hw; reflexivity);
    destruct (two_byte_space a b); try reflexivity;
    exfalso; apply Hw; reflexivity.
Qed.

Lemma one_space_blank (s : string) : one_space s = true -> blank s = true.
Proof.
  unfold one_space. intros H.
  destruct s as [|a [|b [|c [|d rest]]]]; cbn [space_width blank String.length] in *;
    try discriminate;
    destruct (ascii_space a); try discriminate; try reflexivity;
    try (destruct (two_byte_space a b); try discriminate; try reflexivity);
    try (destruct (three_byte_space a b c); try discriminate; try reflexivity).
Qed.

Lemma rstrip_spec (s : string) :
  exists trail, s = rstrip s +:+ trail /\ blank trail = true.
Proof.
  induction s as [|c rest IH]; [exists ""; split; reflexivity|].
  cbn [rstrip]. destruct (blank (String c rest)) eqn:Hb.
  - exists (String c rest). split; [reflexivity|exact Hb].
  - destruct IH as (trail & Hs & Ht). exists trail.
    rewrite append_cons, <- Hs. split; [reflexivity|exact Ht].
Qed.

(** What [rstrip] leaves ends with no white space. *)
Lemma rstrip_end (s : string) : ends_blank (rstrip s) = false.
Proof.
  induction s as [|c rest IH]; [reflexivity|].
  cbn [rstrip]. destruct (blank (String c rest)) eqn:Hb; [reflexivity|].
  cbn [ends_blank]. rewrite IH, orb_false_r.
  destruct (one_space (String c (rstrip rest))) eqn:Ho; [|reflexivity].
  destruct (rstrip_spec rest) as (trail & Hs & Ht).
  assert (Hall : blank (String c (rstrip rest) +:+ trail) = true).
  { apply blank_app; [apply one_space_blank; exact Ho|exact Ht]. }
  rewrite append_cons, <- Hs, Hb in Hall. discriminate.
Qed.

(** [rstrip] does not bring white space to the start. *)
Lemma rstrip_start (s : string) :
  space_width s = 0%nat -> space_width (rstrip s) = 0%nat.
Proof.
  intros Hw. destruct (rstrip_spec s) as (trail & Hs & _).
  destruct (Nat.eq_dec (space_width (rstrip s)) 0%nat) as [H0|Hne]; [exact H0|].
  pose proof (space_width_app (rstrip s) trail Hne) as Happ.
  rewrite <- Hs, Hw in Happ. symmetry. exact Happ.
Qed.

Lemma strip_visible (s : string) : has_visible s = true -> strip s <> "".
Proof.
  unfold has_visible, strip. intros Hv Hempty.
  destruct (lstrip_spec s) as (lead & Hs & Hl).
  destruct (rstrip_spec (lstrip s)) as (trail & Hr & Ht).
  rewrite Hempty, append_empty in Hr.
  assert (Hb : blank s = true).
  { rewrite Hs. apply blank_app; [exact Hl|]. rewrite Hr. exact Ht. }
  rewrite Hb in Hv. discriminate.
Qed.

(** What [strip] removes is white space at both ends, and all of it. *)
Lemma strip_spec (s : string) :
  (exists lead trail,
     s = lead +:+ strip s +:+ trail /\
     blank lead = true /\ blank trail = true) /\
  starts_blank (strip s) = false /\ ends_blank (strip s) = false.
Proof.
  unfold strip, has_visible, starts_blank. split; [|split].
  - destruct (lstrip_spec s) as (lead & Hs & Hl).
    destruct (rstrip_spec (lstrip s)) as (trail & Hr & Ht).
    exists lead, trail. rewrite <- Hr, <- Hs. repeat split; assumption.
  - rewrite rstrip_start by apply lstrip_start. reflexivity.
  - apply rstrip_end.
Qed.

(** A label between a no-break space (U+00A0) and a hair space (U+200A)
    with a line feed; a no-break space alone, which is no label; a letter
    outside ASCII (U+00E9) before a space. *)
Example strip_sample :
  strip (String (Ascii.ascii_of_nat 194) (String (Ascii.ascii_of_nat 160)
           ("Dining Out " +:+ String (Ascii.ascii_of_nat 226)
              (String (Ascii.ascii_of_nat 128) (String (Ascii.ascii_of_nat 138) nl)))))
  = "Dining Out" /\
  strip (String (Ascii.ascii_of_nat 194) (String (Ascii.ascii_of_nat 160) "")) = "" /\
  has_visible (String (Ascii.ascii_of_nat 194) (String (Ascii.ascii_of_nat 160) ""))
  = false /\
  strip (String (Ascii.ascii_of_nat 195) (String (Ascii.ascii_of_nat 169) " ")) =
    String (Ascii.ascii_of_nat 195) (String (Ascii.ascii_of_nat 169) "").
Proof. vm_compute. repeat split; reflexivity. Qed.

(** C10: the pass changes nothing but Category cells of the frame it is given:
    whether it ends normally or with an exception, the frame has the same
    number of rows, every row keeps its place and its Date, Description,
    Income/Expense flag and Amount, and no other frame is touched. *)
Theorem C10_only_category_changes (X : Ext) (df : nat) (w : World) (d : DataFrame) :
  heap w !! df = Some d ->
  exists d',
    heap (categorize_transactions X df w).2 !! df = Some d' /\
    length d' = length d /\
    (forall i r, d !! i = Some r ->
       exists r', d' !! i = Some r' /\
         Date r' = Date r /\ Description r' = Description r /\
         Income_Expense r' = Income_Expense r /\ Amount r' = Amount r) /\
    (forall l, l <> df ->
       heap (categorize_transactions X df w).2 !! l = heap w !! l).
Proof.
  intros Hd.
  destruct (categorize_transactions_model X df w d Hd) as (_ & Hheap & _).
  pose proof (pass_model_frame X d (requests w)) as Hframe.
  exists (pass_model X (requests w) d).1.2.
  rewrite Hheap. split; [apply lookup_insert_eq|].
  split; [symmetry; eapply Forall2_length; exact Hframe|].
  split.
  - intros i r Hi.
    destruct (Forall2_lookup_l _ _ _ _ _ Hframe Hi) as (r' & Hr' & Hsame).
    exists r'. split; [exact Hr'|exact Hsame].
  - intros l Hl. apply lookup_insert_ne. congruence.
Qed.

Lemma C10_only_category_changes_witness :
  heap c2_world !! 0%nat = Some c2_frame /\
  exists d',
    heap (categorize_transactions quiet_ext 0 c2_world).2 !! 0%nat = Some d' /\
    length d' = length c2_frame /\
    (forall i r, c2_frame !! i = Some r ->
       exists r', d' !! i = Some r' /\
         Date r' = Date r /\ Description r' = Description r /\
         Income_Expense r' = Income_Expense r /\ Amount r' = Amount r) /\
    (forall l, l <> 0%nat ->
       heap (categorize_transactions quiet_ext 0 c2_world).2 !! l = heap c2_world !! l).
Proof.
  split; [reflexivity|].
  apply (C10_only_category_changes quiet_ext 0 c2_world c2_frame). reflexivity.
Defined.

(** C2: a blank Category field of the file is a missing value in the frame
    [pd.read_csv] builds, and a missing value is not equal to the empty
    text: the pass over the frame loaded from the file selects no row, sends
    no request and leaves the Category missing.  The same two rows read from
    the remote sheet, where the blank cell is the empty text, cost one
    request and the row gets its category. *)
Theorem C2_blank_csv_cell_stays_unclassified :
  (exists l w1 w2,
     load_data sheet_ext file_run_world = (Ok l, w1) /\
     heap w1 !! l = Some c1_frame /\
     Category <$> c1_frame !! 1%nat = Some None /\
     categorize_transactions sheet_ext l w1 = (Ok l, w2) /\
     heap w2 !! l = Some c1_frame /\
     requests w2 = requests file_run_world) /\
  (exists l w1 w2 d',
     load_data sheet_ext sheet_loaded_world = (Ok l, w1) /\
     heap w1 !! l = Some sheet_frame /\
     Category <$> sheet_frame !! 1%nat = Some (Some "") /\
     categorize_transactions sheet_ext l w1 = (Ok l, w2) /\
     heap w2 !! l = Some d' /\
     Category <$> d' !! 1%nat = Some (Some "Utilities") /\
     requests w2 = S (requests sheet_loaded_world)).
Proof.
  split.
  - eexists. eexists. eexists.
    split; [vm_compute; reflexivity|].
    split; [vm_compute; reflexivity|].
    split; [reflexivity|].
    split; [vm_compute; reflexivity|].
    split; vm_compute; reflexivity.
  - eexists. eexists. eexists. eexists.
    split; [vm_compute; reflexivity|].
    split; [vm_compute; reflexivity|].
    split; [reflexivity|].
    split; [vm_compute; reflexivity|].
    split; [vm_compute; reflexivity|].
    split; vm_compute; reflexivity.
Qed.

(** C3, as stated, fails: the label is not stored verbatim, its leading and
    trailing white space is removed first. *)
Lemma C3_counterexample :
  answer newline_ext 0 "Sydney Water Bill" = Ok ("Bananas" +:+ nl) /\
  exists w' d' r',
    categorize_transactions newline_ext 0 c2_world = (Ok 0%nat, w') /\
    heap w' !! 0%nat = Some d' /\
    d' !! 1%nat = Some r' /\
    Category r' = Some "Bananas" /\
    Category r' <> Some ("Bananas" +:+ nl).
Proof.
  split; [reflexivity|].
  eexists. eexists. eexists.
  split; [vm_compute; reflexivity|].
  split; [reflexivity|]. split; [reflexivity|]. split; [reflexivity|].
  vm_compute. discriminate.
Qed.

(** C3, amended: in a pass that ends normally, each row whose Category was the
    empty text costs one request, numbered in row order, and its Category
    becomes the label the service returned to that request with all its
    leading and trailing white space removed: the label is the stored text
    between two runs of white space, and the stored text neither starts nor
    ends with white space.  The label is not compared with the allowed
    categories and is not altered otherwise. *)
Theorem C3_stores_stripped_label (X : Ext) (df l : nat) (w w' : World) (d : DataFrame) :
  heap w !! df = Some d ->
  categorize_transactions X df w = (Ok l, w') ->
  exists d',
    heap w' !! df = Some d' /\
    forall i r, d !! i = Some r -> Category r = Some "" ->
      exists label,
        answer X (requests w + empties_before i d) (Description r) = Ok label /\
        Category <$> d' !! i = Some (Some (strip label)) /\
        (exists lead trail,
           label = lead +:+ strip label +:+ trail /\
           blank lead = true /\ blank trail = true) /\
        starts_blank (strip label) = false /\
        ends_blank (strip label) = false.
Proof.
  intros Hd Hrun.
  destruct (categorize_transactions_model X df w d Hd) as (Hres & Hheap & _).
  rewrite Hrun in Hres, Hheap. cbn [fst snd] in Hres, Hheap.
  destruct (pass_model X (requests w) d) as [[res d'] n'] eqn:Hm.
  cbn [fst snd] in Hres, Hheap.
  destruct res as [u|e]; [|discriminate].
  exists d'. split; [rewrite Hheap; apply lookup_insert_eq|].
  intros i r Hi Hc.
  destruct (pass_model_rows X d _ _ _ _ Hm i r Hi) as (r' & Hr' & _ & Heq).
  destruct (Heq Hc) as (label & Hans & ->).
  exists label. split; [exact Hans|]. split; [rewrite Hr'; reflexivity|].
  apply strip_spec.
Qed.

Lemma C3_stores_stripped_label_witness :
  heap c2_world !! 0%nat = Some c2_frame /\
  exists w',
    categorize_transactions newline_ext 0 c2_world = (Ok 0%nat, w') /\
    exists d',
      heap w' !! 0%nat = Some d' /\
      forall i r, c2_frame !! i = Some r -> Category r = Some "" ->
        exists label,
          answer newline_ext (requests c2_world + empties_before i c2_frame)
                 (Description r) = Ok label /\
          Category <$> d' !! i = Some (Some (strip label)) /\
          (exists lead trail,
             label = lead +:+ strip label +:+ trail /\
             blank lead = true /\ blank trail = true) /\
          starts_blank (strip label) = false /\
          ends_blank (strip label) = false.
Proof.
  split; [reflexivity|].
  eexists. split; [vm_compute; reflexivity|].
  eapply (C3_stores_stripped_label newline_ext 0 0 c2_world _ c2_frame);
    [reflexivity|vm_compute; reflexivity].
Defined.


(** ** The Report Renderer: the three substitutions *)

Lemma prefix_empty (s : string) : String.prefix "" s = true.
Proof. destruct s; reflexivity. Qed.

Lemma prefix_spec (t : string) :
  forall s, String.prefix t s = true <-> exists b, s = t +:+ b.
Proof.
  induction t as [|c t IH]; intros s.
  - rewrite prefix_empty. split; [intros _; exists s; reflexivity|reflexivity].
  - destruct s as [|d s]; cbn [String.prefix].
    + split; [discriminate|]. intros [b Hb]. discriminate.
    + destruct (Ascii.ascii_dec c d) as [->|Hne].
      * rewrite IH. split; intros [b Hb]; exists b;
          rewrite append_cons in *; congruence.
      * split; [discriminate|]. intros [b Hb].
        rewrite append_cons in Hb. congruence.
Qed.

Lemma occursb_unfold (t s : string) :
  occursb t s =
  String.prefix t s ||
  match s with
  | EmptyString => false
  | String _ rest => occursb t rest
  end.
Proof. destruct s; reflexivity. Qed.

Lemma occursb_spec (t s : string) : occursb t s = true <-> occurs t s.
Proof.
  unfold occurs. split.
  - induction s as [|c s IH]; rewrite occursb_unfold; intros H;
      apply orb_true_iff in H as [H|H].
    + apply prefix_spec in H as [b ->]. exists "", b. reflexivity.
    + discriminate.
    + apply prefix_spec in H as [b ->]. exists "", b. reflexivity.
    + destruct (IH H) as (a & b & ->). exists (String c a), b. reflexivity.
  - intros (a & b & ->). induction a as [|c a IH].
    + rewrite occursb_unfold. apply orb_true_iff. left.
      apply prefix_spec. exists b. reflexivity.
    + rewrite append_cons, occursb_unfold, IH. apply orb_true_r.
Qed.

Lemma not_occurs_iff (t s : string) : ~ occurs t s <-> occursb t s = false.
Proof.
  rewrite <- occursb_spec. destruct (occursb t s); split; congruence.
Qed.

Lemma occursb_tail (t : string) (c : Ascii.ascii) (s : string) :
  occursb t (String c s) = false ->
  String.prefix t (String c s) = false /\ occursb t s = false.
Proof. rewrite occursb_unfold. apply orb_false_iff. Qed.

Lemma occursb_sdrop (t : string) (k : nat) :
  forall s, occursb t s = false -> occursb t (sdrop k s) = false.
Proof.
  induction k as [|k IH]; intros s H; [exact H|].
  destruct s as [|c s]; [exact H|]. cbn [sdrop].
  apply IH. apply (occursb_tail t c s H).
Qed.

Lemma prefix_srep (n : nat) (c : Ascii.ascii) :
  forall s, String.prefix (srep n c) s = (n <=? run c s)%nat.
Proof.
  induction n as [|n IH]; intros s; [apply prefix_empty|].
  destruct s as [|d s]; [reflexivity|].
  cbn [srep String.prefix run].
  destruct (Ascii.ascii_dec c d); [apply IH|reflexivity].
Qed.

Lemma run_sdrop (c : Ascii.ascii) (n : nat) :
  forall s, (n <= run c s)%nat -> (run c (sdrop n s) <= run c s)%nat.
Proof.
  induction n as [|n IH]; intros s Hn; [reflexivity|].
  destruct s as [|d s]; [reflexivity|]. cbn [sdrop run] in *.
  destruct (Ascii.ascii_dec c d); [|lia].
  specialize (IH s). lia.
Qed.

Lemma occursb_app_free (n : nat) (c : Ascii.ascii) (new r : string) :
  free_of c new = true ->
  occursb (srep (S n) c) (new +:+ r) = occursb (srep (S n) c) r.
Proof.
  induction new as [|d new IH]; intros Hfree; [reflexivity|].
  cbn [free_of] in Hfree. apply andb_true_iff in Hfree as [Hd Hfree].
  rewrite append_cons, occursb_unfold, (IH Hfree).
  cbn [srep String.prefix].
  destruct (Ascii.ascii_dec c d); [discriminate|reflexivity].
Qed.

Lemma run_app_free (c : Ascii.ascii) (new r : string) :
  free_of c new = true -> (run c (new +:+ r) <= run c r)%nat.
Proof.
  destruct new as [|d new]; intros Hfree; [reflexivity|].
  cbn [free_of] in Hfree. rewrite append_cons. cbn [run].
  destruct (Ascii.ascii_dec c d); [discriminate|lia].
Qed.

(** The jump over a matched token. *)
Lemma replace_from_skip (old new : string) (s : string) :
  forall k, replace_from old new k s = replace_from old new 0 (sdrop k s).
Proof.
  induction s as [|c s IH]; intros k.
  - destruct k; reflexivity.
  - destruct k as [|k]; [reflexivity|]. cbn [replace_from sdrop]. apply IH.
Qed.

Lemma replace_from_match (old new : string) (o : Ascii.ascii) (old' : string)
    (d : Ascii.ascii) (s : string) :
  old = String o old' ->
  replace_from old new 0 (String d s) =
  if String.prefix old (String d s)
  then new +:+ replace_from old new (String.length old - 1) s
  else String d (replace_from old new 0 s).
Proof. intros ->. reflexivity. Qed.

(** One step of [replace] for a token that is not empty: at a match, [new]
    and the rest after [old]; otherwise the character and the rest. *)
Lemma replace_step (old new : string) (c : Ascii.ascii) (rest : string) :
  old <> "" ->
  replace old new (String c rest) =
  if String.prefix old (String c rest)
  then new +:+ replace old new (sdrop (String.length old - 1) rest)
  else String c (replace old new rest).
Proof.
  intros Hne. unfold replace. cbn [replace_from].
  rewrite <- replace_from_skip.
  destruct old as [|o old]; [contradiction|reflexivity].
Qed.

(** The empty token: [new] before every character and at the end. *)
Lemma replace_empty_token (new : string) (c : Ascii.ascii) (rest : string) :
  replace "" new "" = new /\
  replace "" new (String c rest) = new +:+ String c (replace "" new rest).
Proof. split; reflexivity. Qed.

(** A text in which the token does not occur is left as it is. *)
Lemma replace_absent (old new : string) (s : string) :
  occursb old s = false -> replace old new s = s.
Proof.
  unfold replace. induction s as [|c s IH]; intros H.
  - cbn [replace_from]. rewrite occursb_unfold in H.
    apply orb_false_iff in H as [-> _]. reflexivity.
  - apply occursb_tail in H as [Hp Ho].
    cbn [replace_from]. rewrite Hp, (IH Ho). reflexivity.
Qed.

(** After the replacement of a token made of one repeated character by a
    text without that character, the token occurs nowhere. *)
Lemma replace_removes (n : nat) (c : Ascii.ascii) (new : string) :
  free_of c new = true ->
  forall s k,
    occursb (srep (S n) c) (replace_from (srep (S n) c) new k s) = false /\
    (run c (replace_from (srep (S n) c) new k s) <= run c (sdrop k s))%nat.
Proof.
  intros Hfree. induction s as [|d s IH]; intros k.
  - destruct k; split; reflexivity.
  - destruct k as [|k]; [|apply IH].
    rewrite (replace_from_match (srep (S n) c) new c (srep n c) d s eq_refl).
    cbn [sdrop].
    destruct (String.prefix (srep (S n) c) (String d s)) eqn:Hp.
    + destruct (IH (String.length (srep (S n) c) - 1)%nat) as [Ho Hr].
      rewrite occursb_app_free by exact Hfree. split; [exact Ho|].
      etransitivity; [apply run_app_free; exact Hfree|].
      etransitivity; [exact Hr|].
      rewrite prefix_srep in Hp. apply Nat.leb_le in Hp.
      assert (Hlen : String.length (srep (S n) c) = S n).
      { clear. induction n as [|n IHn]; [reflexivity|].
        cbn [srep String.length] in *. rewrite IHn. reflexivity. }
      rewrite Hlen. cbn [Nat.sub]. rewrite Nat.sub_0_r.
      change (sdrop n s) with (sdrop (S n) (String d s)).
      apply run_sdrop. exact Hp.
    + destruct (IH 0%nat) as [Ho Hr]. cbn [sdrop] in Hr.
      assert (Hrun : (run c (String d (replace_from (srep (S n) c) new 0 s))
                      <= run c (String d s))%nat).
      { cbn [run]. destruct (Ascii.ascii_dec c d); lia. }
      split; [|exact Hrun].
      rewrite occursb_unfold, Ho, orb_false_r, prefix_srep.
      rewrite prefix_srep in Hp. apply Nat.leb_gt in Hp. apply Nat.leb_gt. lia.
Qed.

(** A replacement of a token that is not empty by a text that is not empty
    and has no character [e] does not bring in a token made of characters
    [e]. *)
Lemma replace_keeps_absent (m : nat) (e : Ascii.ascii) (old new : string) :
  free_of e new = true -> new <> "" -> old <> "" ->
  forall s k,
    occursb (srep (S m) e) (sdrop k s) = false ->
    occursb (srep (S m) e) (replace_from old new k s) = false /\
    (run e (replace_from old new k s) <= run e (sdrop k s))%nat.
Proof.
  intros Hfree Hne Hold.
  destruct old as [|o old]; [contradiction|].
  induction s as [|d s IH]; intros k Habs.
  - destruct k; split; reflexivity.
  - destruct k as [|k]; [|apply IH; exact Habs].
    cbn [replace_from sdrop] in *.
    apply occursb_tail in Habs as [Hp Habs].
    destruct (String.prefix (String o old) (String d s)).
    + destruct (IH (String.length (String o old) - 1)%nat) as [Ho Hr].
      { apply occursb_sdrop. exact Habs. }
      rewrite occursb_app_free by exact Hfree. split; [exact Ho|].
      destruct new as [|x new]; [contradiction|].
      cbn [free_of] in Hfree. rewrite append_cons. cbn [run].
      destruct (Ascii.ascii_dec e x); [discriminate|lia].
    + destruct (IH 0%nat Habs) as [Ho Hr]. cbn [sdrop] in Hr.
      assert (Hrun : (run e (String d (replace_from (String o old) new 0 s))
                      <= run e (String d s))%nat).
      { cbn [run]. destruct (Ascii.ascii_dec e d); lia. }
      split; [|exact Hrun].
      rewrite occursb_unfold, Ho, orb_false_r, prefix_srep.
      rewrite prefix_srep in Hp. apply Nat.leb_gt in Hp. apply Nat.leb_gt. lia.
Qed.

Lemma markup_no_bold (text : string) : occursb "**" (markup text) = false.
Proof.
  unfold markup, replace.
  pose proof (proj1 (replace_removes 1 star "" eq_refl text 0%nat)) as H1.
  pose proof (proj1 (replace_keeps_absent 1 star "###" "<h3>" eq_refl
                       ltac:(discriminate) ltac:(discriminate) _ 0%nat H1)) as H2.
  exact (proj1 (replace_keeps_absent 1 star nl "<br>" eq_refl
                  ltac:(discriminate) ltac:(discriminate) _ 0%nat H2)).
Qed.

Lemma markup_no_heading (text : string) : occursb "###" (markup text) = false.
Proof.
  unfold markup, replace.
  pose proof (proj1 (replace_removes 2 hash "<h3>" eq_refl
                       (replace_from "**" "" 0 text) 0%nat)) as H2.
  exact (proj1 (replace_keeps_absent 2 hash nl "<br>" eq_refl
                  ltac:(discriminate) ltac:(discriminate) _ 0%nat H2)).
Qed.

Lemma markup_no_line_break (text : string) : occursb nl (markup text) = false.
Proof.
  unfold markup, replace.
  exact (proj1 (replace_removes 0 line_feed "<br>" eq_refl _ 0%nat)).
Qed.

Lemma markup_plain (text : string) :
  occursb "**" text = false -> occursb "###" text = false ->
  occursb nl text = false -> markup text = text.
Proof.
  intros Hb Hh Hn. unfold markup.
  rewrite (replace_absent "**" "" text Hb).
  rewrite (replace_absent "###" "<h3>" text Hh).
  apply replace_absent. exact Hn.
Qed.

Example markup_sample :
  markup ("### Income Overview" +:+ nl +:+ "- **Total Income:** $39,952.00 <b>")
  = "<h3> Income Overview<br>- Total Income: $39,952.00 <b>".
Proof. vm_compute. reflexivity. Qed.

Lemma length_append (a b : string) :
  String.length (a +:+ b) = (String.length a + String.length b)%nat.
Proof.
  induction a as [|c a IH]; [reflexivity|].
  rewrite append_cons. cbn [String.length]. rewrite IH. reflexivity.
Qed.

Lemma sdrop_app (a b : string) : sdrop (String.length a) (a +:+ b) = b.
Proof. induction a as [|c a IH]; [reflexivity|exact IH]. Qed.

Lemma replace_nil (old new : string) : old <> "" -> replace old new "" = "".
Proof. intros Hne. destruct old; [contradiction|reflexivity]. Qed.

(** Where the token starts, [replace] writes [new] and goes on after it. *)
Lemma replace_hit (old new b : string) :
  old <> "" -> replace old new (old +:+ b) = new +:+ replace old new b.
Proof.
  intros Hne. destruct old as [|o old]; [contradiction|].
  rewrite append_cons, replace_step by exact Hne.
  assert (Hp : String.prefix (String o old) (String o (old +:+ b)) = true).
  { apply prefix_spec. exists b. reflexivity. }
  rewrite Hp. cbn [String.length Nat.sub]. rewrite Nat.sub_0_r, sdrop_app.
  reflexivity.
Qed.

(** Elsewhere it copies the character. *)
Lemma replace_copy (old new : string) (c : Ascii.ascii) (b : string) :
  old <> "" -> ~ starts_with old (String c b) ->
  replace old new (String c b) = String c (replace old new b).
Proof.
  intros Hne Hno. rewrite replace_step by exact Hne.
  destruct (String.prefix old (String c b)) eqn:Hp; [|reflexivity].
  exfalso. apply Hno. apply prefix_spec. exact Hp.
Qed.

(** [replace] computes the substitution, and nothing else is one. *)
Lemma substituted_replace (old new : string) :
  old <> "" ->
  forall s r, substituted old new s r -> r = replace old new s.
Proof.
  intros Hne s r H. induction H as [|b r _ IH|c b r Hno _ IH].
  - symmetry. apply replace_nil. exact Hne.
  - rewrite replace_hit by exact Hne. rewrite IH. reflexivity.
  - rewrite replace_copy by assumption. rewrite IH. reflexivity.
Qed.

Lemma replace_substituted (old new : string) :
  old <> "" -> forall s, substituted old new s (replace old new s).
Proof.
  intros Hne s.
  assert (Hall : forall n s, (String.length s <= n)%nat ->
                             substituted old new s (replace old new s)).
  { clear s. induction n as [|n IH]; intros s Hlen.
    - destruct s; [|cbn in Hlen; lia].
      rewrite replace_nil by exact Hne. constructor.
    - destruct s as [|c s].
      { rewrite replace_nil by exact Hne. constructor. }
      destruct (String.prefix old (String c s)) eqn:Hp.
      + apply prefix_spec in Hp as [b Hb]. rewrite Hb.
        rewrite replace_hit by exact Hne. apply sub_hit. apply IH.
        apply (f_equal String.length) in Hb.
        destruct old as [|o old]; [contradiction|].
        rewrite append_cons in Hb. cbn [String.length] in Hb, Hlen.
        rewrite length_append in Hb. lia.
      + rewrite replace_copy; [|exact Hne|].
        * apply sub_copy.
          -- intros Hs. apply prefix_spec in Hs. rewrite Hs in Hp. discriminate.
          -- apply IH. cbn [String.length] in Hlen. lia.
        * intros Hs. apply prefix_spec in Hs. rewrite Hs in Hp. discriminate. }
  apply (Hall (String.length s)). reflexivity.
Qed.

Lemma rendered_markup (text : string) : rendered text (markup text).
Proof.
  exists (replace "**" "" text), (replace "###" "<h3>" (replace "**" "" text)).
  unfold markup. repeat split; apply replace_substituted; discriminate.
Qed.

Lemma rendered_unique (text m : string) : rendered text m -> m = markup text.
Proof.
  intros (s1 & s2 & H1 & H2 & H3).
  apply substituted_replace in H1; [|discriminate].
  apply substituted_replace in H2; [|discriminate].
  apply substituted_replace in H3; [|discriminate].
  subst. reflexivity.
Qed.

(** C4: the document handed to the rendering engine is the fixed template
    around two texts, one made from the summary and one from the advice by
    three substitutions applied one after the other and to the whole text:
    nothing in the place of every token of two asterisks, the opening
    heading tag in the place of every token of three hashes, the line-break
    tag in the place of every line feed.  Each substitution is told by its
    result, which is unique; nothing else is altered or escaped, and none of
    the three tokens is left in what is interpolated. *)
Theorem C4_three_substitutions (X : Ext) (summary advice output_path : string) (w : World) :
  exists m1 m2,
    rendered summary m1 /\ rendered advice m2 /\
    (forall m, rendered summary m -> m = m1) /\
    (forall m, rendered advice m -> m = m2) /\
    trace (create_pdf_report X summary advice output_path w).2 !! length (trace w) =
      Some (EvPdf (template_head +:+ m1 +:+ template_mid +:+ m2 +:+ template_tail)
                  output_path pdf_options) /\
    (forall m, m = m1 \/ m = m2 ->
       ~ occurs "**" m /\ ~ occurs "###" m /\ ~ occurs nl m).
Proof.
  exists (markup summary), (markup advice).
  split; [apply rendered_markup|]. split; [apply rendered_markup|].
  split; [apply rendered_unique|]. split; [apply rendered_unique|].
  split.
  - unfold create_pdf_report, pdfkit_from_string, print, bind, emit. cbn.
    destruct (pdfkit_engine X _ _ _ _) as [[e|] fs]; cbn.
    + apply list_lookup_middle. reflexivity.
    + rewrite <- app_assoc. apply list_lookup_middle. reflexivity.
  - intros m [-> | ->];
      (split; [apply not_occurs_iff, markup_no_bold|]);
      (split; [apply not_occurs_iff, markup_no_heading|]);
      apply not_occurs_iff, markup_no_line_break.
Qed.

(** The three substitutions on a text with the three tokens. *)
Example rendered_sample :
  rendered ("### Income Overview" +:+ nl +:+ "- **Total Income:** $39,952.00 <b>")
           "<h3> Income Overview<br>- Total Income: $39,952.00 <b>".
Proof.
  assert (H : "<h3> Income Overview<br>- Total Income: $39,952.00 <b>" =
              markup ("### Income Overview" +:+ nl +:+
                      "- **Total Income:** $39,952.00 <b>"))
    by (vm_compute; reflexivity).
  rewrite H. apply rendered_markup.
Qed.

(** * Further properties of the notebook *)

(** ** The Aggregator on foreign rows *)

(** X3: a row whose flag is neither 'Income' nor 'Expense' (the comparison is
    exact, so 'expense' or 'EXPENSE' are such flags) counts nowhere: with or
    without it the totals and the per-category map are the same. *)
Theorem foreign_flag_row_is_ignored (X : Ext) (d1 d2 : DataFrame) (r : Transaction) :
  Income_Expense r <> "Income" ->
  Income_Expense r <> "Expense" ->
  total_spent X (d1 ++ r :: d2) = total_spent X (d1 ++ d2) /\
  total_income X (d1 ++ r :: d2) = total_income X (d1 ++ d2) /\
  category_spending X (d1 ++ r :: d2) = category_spending X (d1 ++ d2).
Proof.
  intros Hi He.
  assert (Hsel : forall flag, flag = "Income" \/ flag = "Expense" ->
            select_flag flag (d1 ++ r :: d2) = select_flag flag (d1 ++ d2)).
  { intros flag Hf. unfold select_flag.
    rewrite !filter_app, filter_cons, decide_False; [reflexivity|].
    destruct Hf as [-> | ->]; assumption. }
  unfold total_spent, total_income, category_spending.
  rewrite (Hsel "Expense") by (right; reflexivity).
  rewrite (Hsel "Income") by (left; reflexivity).
  repeat split; reflexivity.
Qed.

Lemma foreign_flag_row_is_ignored_witness :
  Income_Expense lowercase_flag_row <> "Income" /\
  Income_Expense lowercase_flag_row <> "Expense" /\
  total_spent quiet_ext (c1_keyed_frame ++ lowercase_flag_row :: []) =
  total_spent quiet_ext (c1_keyed_frame ++ []).
Proof.
  assert (Hi : Income_Expense lowercase_flag_row <> "Income") by discriminate.
  assert (He : Income_Expense lowercase_flag_row <> "Expense") by discriminate.
  split; [exact Hi|]. split; [exact He|].
  exact (proj1 (foreign_flag_row_is_ignored quiet_ext c1_keyed_frame []
                  lowercase_flag_row Hi He)).
Defined.

(** ** The Transaction Classifier: requests, repetition and failure *)

Lemma classify_loop_requests (X : Ext) (df : nat) (rest : DataFrame) :
  forall (f : nat -> Transaction -> nat * Transaction) (w : World) res w',
    (forall i r, (f i r).2 = r) ->
    for_each (filter (fun ir : nat * Transaction => Category ir.2 = Some "")
                     (imap f rest))
             (classify_row X df) w = (res, w') ->
    (requests w <= requests w')%nat /\
    (requests w' <= requests w + length (empty_rows rest))%nat /\
    (forall u, res = Ok u ->
       requests w' = (requests w + length (empty_rows rest))%nat) /\
    trace w' = trace w ++
               classify_events (take (requests w' - requests w) (empty_rows rest)) /\
    api_key w' = api_key w.
Proof.
  unfold empty_rows.
  induction rest as [|r rest IH]; intros f w res w' Hf Hrun.
  - cbn in Hrun. injection Hrun as <- <-.
    rewrite filter_nil, take_nil. unfold classify_events.
    rewrite fmap_nil, app_nil_r. cbn [length].
    repeat split; intros; lia.
  - rewrite imap_cons, filter_cons in Hrun.
    pose proof (Hf 0%nat r) as H0. destruct (f 0%nat r) as [i r0].
    cbn [snd] in H0, Hrun. subst r0. rewrite filter_cons.
    assert (Hf' : forall j x, ((f ∘ S) j x).2 = x) by (intros j x; apply Hf).
    destruct (decide (Category r = Some "")) as [He|He].
    + cbn [for_each] in Hrun. unfold bind in Hrun.
      rewrite classify_row_run in Hrun.
      destruct (answer X (requests w) (Description r)) as [label|e].
      * apply (IH _ _ _ _ Hf') in Hrun. cbn [requests trace api_key] in Hrun.
        destruct Hrun as (Hle & Hub & Hok & Htr & Hkey). cbn [length].
        split; [lia|]. split; [lia|].
        split; [intros u Hu; rewrite (Hok u Hu); lia|].
        split; [|exact Hkey].
        replace (requests w' - requests w)%nat
          with (S (requests w' - S (requests w))) by lia.
        rewrite Htr, <- app_assoc. reflexivity.
      * injection Hrun as <- <-. cbn [requests trace api_key length].
        split; [lia|]. split; [lia|]. split; [discriminate|].
        split; [|reflexivity].
        replace (S (requests w) - requests w)%nat with 1%nat by lia.
        reflexivity.
    + exact (IH _ _ _ _ Hf' Hrun).
Qed.

(** X5: one request per row whose Category is the empty text, in row order and
    carrying that row's description; nothing is batched and nothing is
    retried: a pass that ends normally has sent exactly as many requests as
    there are such rows, an aborted pass fewer or as many, and the trace
    grows by exactly the requests sent. *)
Theorem one_request_per_empty_row (X : Ext) (df : nat) (w : World) (d : DataFrame)
    (res : Res nat) (w' : World) :
  heap w !! df = Some d ->
  categorize_transactions X df w = (res, w') ->
  (requests w <= requests w' <= requests w + length (empty_rows d))%nat /\
  (forall l, res = Ok l ->
     requests w' = (requests w + length (empty_rows d))%nat) /\
  trace w' = trace w ++
             classify_events (take (requests w' - requests w) (empty_rows d)).
Proof.
  intros Hd Hrun. rewrite (categorize_transactions_loop X df w d Hd) in Hrun.
  destruct (for_each _ (classify_row X df) w) as [r0 w0] eqn:Hloop.
  apply classify_loop_requests in Hloop; [|reflexivity].
  destruct Hloop as (Hle & Hub & Hok & Htr & _).
  destruct r0 as [u|e]; injection Hrun as <- <-.
  - split; [lia|]. split; [intros l _; exact (Hok u eq_refl)|exact Htr].
  - split; [lia|]. split; [discriminate|exact Htr].
Qed.

Lemma one_request_per_empty_row_witness :
  heap c2_world !! 0%nat = Some c2_frame /\
  exists w',
    categorize_transactions quiet_ext 0 c2_world = (Ok 0%nat, w') /\
    requests w' = (requests c2_world + length (empty_rows c2_frame))%nat.
Proof.
  split; [reflexivity|].
  eexists. split; [vm_compute; reflexivity|].
  refine (proj1 (proj2 (one_request_per_empty_row quiet_ext 0 c2_world c2_frame
                          (Ok 0%nat) _ eq_refl _)) 0%nat eq_refl).
  vm_compute. reflexivity.
Defined.

Lemma empty_rows_nil (d : DataFrame) :
  (forall r, r ∈ d -> Category r <> Some "") -> empty_rows d = [].
Proof.
  unfold empty_rows. induction d as [|r d IH]; intros Hall; [reflexivity|].
  rewrite filter_cons, decide_False by (apply Hall; left).
  apply IH. intros r' Hr'. apply Hall. right. exact Hr'.
Qed.

Lemma selected_rows_nil (d : DataFrame) :
  forall f : nat -> Transaction -> nat * Transaction,
    (forall i r, (f i r).2 = r) ->
    empty_rows d = [] ->
    filter (fun ir : nat * Transaction => Category ir.2 = Some "") (imap f d) = [].
Proof.
  unfold empty_rows. induction d as [|r d IH]; intros f Hf Hnil; [reflexivity|].
  rewrite filter_cons in Hnil. rewrite imap_cons, filter_cons, (Hf 0%nat r).
  destruct (decide (Category r = Some "")); [discriminate|].
  apply IH; [intros i x; apply Hf|exact Hnil].
Qed.

Lemma pass_without_empty_rows (X : Ext) (df : nat) (w : World) (d : DataFrame) :
  heap w !! df = Some d ->
  empty_rows d = [] ->
  categorize_transactions X df w = (Ok df, w).
Proof.
  intros Hd Hnil. rewrite (categorize_transactions_loop X df w d Hd).
  rewrite selected_rows_nil by (reflexivity || exact Hnil). reflexivity.
Qed.

(** X6: a frame in which no Category is the empty text is left alone: the pass
    sends no request and changes nothing at all.  Rows whose Category is a
    missing value are such rows: they are never sent to the service. *)
Theorem pass_skips_filled_and_missing (X : Ext) (df : nat) (w : World) (d : DataFrame) :
  heap w !! df = Some d ->
  (forall r, r ∈ d -> Category r <> Some "") ->
  categorize_transactions X df w = (Ok df, w).
Proof.
  intros Hd Hall. apply (pass_without_empty_rows X df w d Hd).
  apply empty_rows_nil, Hall.
Qed.

Lemma pass_skips_filled_and_missing_witness :
  heap c1_world !! 0%nat = Some c1_frame /\
  (forall r, r ∈ c1_frame -> Category r <> Some "") /\
  categorize_transactions second_fails_ext 0 c1_world = (Ok 0%nat, c1_world).
Proof.
  assert (Hall : forall r, r ∈ c1_frame -> Category r <> Some "").
  { intros r Hr. unfold c1_frame in Hr.
    repeat (apply elem_of_cons in Hr as [->|Hr]; [discriminate|]).
    inversion Hr. }
  split; [reflexivity|]. split; [exact Hall|].
  exact (pass_skips_filled_and_missing second_fails_ext 0 c1_world c1_frame eq_refl Hall).
Defined.

Lemma pass_model_leaves_no_empty (X : Ext) (d : DataFrame) :
  (forall n description,
     exists label, answer X n description = Ok label /\ has_visible label = true) ->
  forall n, empty_rows (pass_model X n d).1.2 = [].
Proof.
  intros Hall. unfold empty_rows.
  induction d as [|r rest IH]; intros n; cbn [pass_model]; [reflexivity|].
  destruct (decide (Category r = Some "")) as [He|He].
  - destruct (Hall n (Description r)) as (label & -> & Hv).
    specialize (IH (S n)). destruct (pass_model X (S n) rest) as [[res rest'] m].
    cbn [fst snd] in *. rewrite filter_cons, decide_False; [exact IH|].
    cbn. intros H. injection H as H. exact (strip_visible label Hv H).
  - specialize (IH n). destruct (pass_model X n rest) as [[res rest'] m].
    cbn [fst snd] in *. rewrite filter_cons, decide_False by exact He. exact IH.
Qed.

(** X7: when every request succeeds and returns a label, a second pass over the
    frame finds nothing to classify: it sends no request and changes
    nothing. *)
Theorem second_pass_does_nothing (X : Ext) (df : nat) (w : World) (d : DataFrame) :
  heap w !! df = Some d ->
  (forall n description,
     exists label, answer X n description = Ok label /\ has_visible label = true) ->
  exists w1,
    categorize_transactions X df w = (Ok df, w1) /\
    categorize_transactions X df w1 = (Ok df, w1).
Proof.
  intros Hd Hall.
  destruct (categorize_transactions_model X df w d Hd) as (Hres & Hheap & _).
  rewrite pass_model_succeeds in Hres
    by (intros n s; destruct (Hall n s) as (l & Hl & _); exists l; exact Hl).
  destruct (categorize_transactions X df w) as [res w1].
  cbn [fst snd] in Hres, Hheap. subst res.
  exists w1. split; [reflexivity|].
  apply (pass_without_empty_rows X df w1 (pass_model X (requests w) d).1.2).
  - rewrite Hheap. apply lookup_insert_eq.
  - apply pass_model_leaves_no_empty, Hall.
Qed.

Lemma second_pass_does_nothing_witness :
  heap c2_world !! 0%nat = Some c2_frame /\
  (forall n description,
     exists label, answer quiet_ext n description = Ok label /\
                   has_visible label = true) /\
  exists w1,
    categorize_transactions quiet_ext 0 c2_world = (Ok 0%nat, w1) /\
    categorize_transactions quiet_ext 0 w1 = (Ok 0%nat, w1).
Proof.
  assert (Hall : forall n description,
            exists label, answer quiet_ext n description = Ok label /\
                          has_visible label = true).
  { intros n s. exists "Miscellaneous". split; reflexivity. }
  split; [reflexivity|]. split; [exact Hall|].
  exact (second_pass_does_nothing quiet_ext 0 c2_world c2_frame eq_refl Hall).
Defined.

Lemma pass_model_abort (X : Ext) (d : DataFrame) :
  forall n e d' n', pass_model X n d = (Raise e, d', n') ->
  exists i r,
    d !! i = Some r /\ Category r = Some "" /\
    answer X (n + empties_before i d) (Description r) = Raise e /\
    n' = S (n + empties_before i d) /\
    drop i d' = drop i d /\
    forall j rj, (j < i)%nat -> d !! j = Some rj ->
      exists r', d' !! j = Some r' /\
        (Category rj <> Some "" -> r' = rj) /\
        (Category rj = Some "" ->
         exists label,
           answer X (n + empties_before j d) (Description rj) = Ok label /\
           r' = with_Category (strip label) rj).
Proof.
  unfold empties_before.
  induction d as [|r0 rest IH]; intros n e d' n' Hm; [discriminate|].
  cbn [pass_model] in Hm.
  destruct (decide (Category r0 = Some "")) as [He|He].
  - destruct (answer X n (Description r0)) as [label|e0] eqn:Hans.
    + destruct (pass_model X (S n) rest) as [[res rest'] m] eqn:Hrest.
      injection Hm as -> <- <-.
      destruct (IH (S n) e rest' m Hrest) as (i & r & Hi & Hc & Ha & Hn & Hdrop & Hbefore).
      exists (S i), r.
      change (take (S i) (r0 :: rest)) with (r0 :: take i rest).
      rewrite filter_cons, decide_True by exact He. cbn [length].
      rewrite Nat.add_succ_r.
      split; [exact Hi|]. split; [exact Hc|]. split; [exact Ha|].
      split; [exact Hn|]. split; [exact Hdrop|].
      intros [|j] rj Hj Hrj.
      * cbn in Hrj. injection Hrj as <-. eexists. split; [reflexivity|].
        split; [contradiction|]. intros _. exists label. cbn.
        rewrite Nat.add_0_r. split; [exact Hans|reflexivity].
      * cbn in Hrj.
        destruct (Hbefore j rj ltac:(lia) Hrj) as (r' & Hr' & Hne & Heq).
        exists r'. split; [exact Hr'|]. split; [exact Hne|].
        intros Hcj. destruct (Heq Hcj) as (lbl & Hl & ->). exists lbl.
        change (take (S j) (r0 :: rest)) with (r0 :: take j rest).
        rewrite filter_cons, decide_True by exact He. cbn [length].
        rewrite Nat.add_succ_r. split; [exact Hl|reflexivity].
    + injection Hm as <- <- <-. exists 0%nat, r0. cbn.
      rewrite Nat.add_0_r. repeat split; try assumption.
      intros j rj Hj. lia.
  - destruct (pass_model X n rest) as [[res rest'] m] eqn:Hrest.
    injection Hm as -> <- <-.
    destruct (IH n e rest' m Hrest) as (i & r & Hi & Hc & Ha & Hn & Hdrop & Hbefore).
    exists (S i), r.
    change (take (S i) (r0 :: rest)) with (r0 :: take i rest).
    rewrite filter_cons, decide_False by exact He.
    split; [exact Hi|]. split; [exact Hc|]. split; [exact Ha|].
    split; [exact Hn|]. split; [exact Hdrop|].
    intros [|j] rj Hj Hrj.
    * cbn in Hrj. injection Hrj as <-. eexists. split; [reflexivity|].
      split; [reflexivity|]. contradiction.
    * cbn in Hrj.
      destruct (Hbefore j rj ltac:(lia) Hrj) as (r' & Hr' & Hne & Heq).
      exists r'. split; [exact Hr'|]. split; [exact Hne|].
      intros Hcj. destruct (Heq Hcj) as (lbl & Hl & ->). exists lbl.
      change (take (S j) (r0 :: rest)) with (r0 :: take j rest).
      rewrite filter_cons, decide_False by exact He.
      split; [exact Hl|reflexivity].
Qed.

(** X8: a failing request ends the pass at once and the exception is the
    service's: the row it was sent for and every row after it are as they
    were, no further request is sent, and the rows classified before the
    failure keep their new categories in the frame. *)
Theorem failed_request_aborts_pass (X : Ext) (df : nat) (w w' : World)
    (d : DataFrame) (e : Exn) :
  heap w !! df = Some d ->
  categorize_transactions X df w = (Raise e, w') ->
  exists d' i r,
    heap w' !! df = Some d' /\
    d !! i = Some r /\ Category r = Some "" /\
    answer X (requests w + empties_before i d) (Description r) = Raise e /\
    requests w' = S (requests w + empties_before i d) /\
    drop i d' = drop i d /\
    forall j rj, (j < i)%nat -> d !! j = Some rj -> Category rj = Some "" ->
      exists label,
        answer X (requests w + empties_before j d) (Description rj) = Ok label /\
        d' !! j = Some (with_Category (strip label) rj).
Proof.
  intros Hd Hrun.
  destruct (categorize_transactions_model X df w d Hd) as (Hres & Hheap & Hreq & _).
  rewrite Hrun in Hres, Hheap, Hreq. cbn [fst snd] in Hres, Hheap, Hreq.
  destruct (pass_model X (requests w) d) as [[res d'] n'] eqn:Hm.
  cbn [fst snd] in Hres, Hheap, Hreq.
  destruct res as [u|e0]; [discriminate|]. injection Hres as ->.
  destruct (pass_model_abort X d _ _ _ _ Hm)
    as (i & r & Hi & Hc & Ha & Hn & Hdrop & Hbefore).
  exists d', i, r. split; [rewrite Hheap; apply lookup_insert_eq|].
  split; [exact Hi|]. split; [exact Hc|]. split; [exact Ha|].
  split; [congruence|]. split; [exact Hdrop|].
  intros j rj Hj Hrj Hcj.
  destruct (Hbefore j rj Hj Hrj) as (r' & Hr' & _ & Heq).
  destruct (Heq Hcj) as (label & Hl & ->). exists label. split; assumption.
Qed.

Lemma failed_request_aborts_pass_witness :
  heap two_empty_world !! 0%nat = Some two_empty_frame /\
  exists w',
    categorize_transactions second_fails_ext 0 two_empty_world = (Raise rate_limit, w') /\
    exists d' i r,
      heap w' !! 0%nat = Some d' /\
      two_empty_frame !! i = Some r /\ Category r = Some "" /\
      answer second_fails_ext (requests two_empty_world + empties_before i two_empty_frame)
             (Description r) = Raise rate_limit /\
      requests w' = S (requests two_empty_world + empties_before i two_empty_frame) /\
      drop i d' = drop i two_empty_frame /\
      forall j rj, (j < i)%nat -> two_empty_frame !! j = Some rj ->
        Category rj = Some "" ->
        exists label,
          answer second_fails_ext
                 (requests two_empty_world + empties_before j two_empty_frame)
                 (Description rj) = Ok label /\
          d' !! j = Some (with_Category (strip label) rj).
Proof.
  split; [reflexivity|].
  eexists. split; [vm_compute; reflexivity|].
  eapply (failed_request_aborts_pass second_fails_ext 0 two_empty_world _
            two_empty_frame rate_limit); [reflexivity|vm_compute; reflexivity].
Defined.

(** X9: the category a normal pass stores never starts or ends with white
    space. *)
Theorem stored_category_is_trimmed (X : Ext) (df l : nat) (w w' : World) (d : DataFrame) :
  heap w !! df = Some d ->
  categorize_transactions X df w = (Ok l, w') ->
  exists d',
    heap w' !! df = Some d' /\
    forall i r, d !! i = Some r -> Category r = Some "" ->
      exists c,
        Category <$> d' !! i = Some (Some c) /\
        starts_blank c = false /\ ends_blank c = false.
Proof.
  intros Hd Hrun.
  destruct (categorize_transactions_model X df w d Hd) as (Hres & Hheap & _).
  rewrite Hrun in Hres, Hheap. cbn [fst snd] in Hres, Hheap.
  destruct (pass_model X (requests w) d) as [[res d'] n'] eqn:Hm.
  cbn [fst snd] in Hres, Hheap.
  destruct res as [u|e]; [|discriminate].
  exists d'. split; [rewrite Hheap; apply lookup_insert_eq|].
  intros i r Hi Hc.
  destruct (pass_model_rows X d _ _ _ _ Hm i r Hi) as (r' & Hr' & _ & Heq).
  destruct (Heq Hc) as (label & _ & ->).
  exists (strip label). split; [rewrite Hr'; reflexivity|].
  apply strip_spec.
Qed.

Lemma stored_category_is_trimmed_witness :
  heap c2_world !! 0%nat = Some c2_frame /\
  exists w',
    categorize_transactions newline_ext 0 c2_world = (Ok 0%nat, w') /\
    exists d',
      heap w' !! 0%nat = Some d' /\
      forall i r, c2_frame !! i = Some r -> Category r = Some "" ->
        exists c,
          Category <$> d' !! i = Some (Some c) /\
          starts_blank c = false /\ ends_blank c = false.
Proof.
  split; [reflexivity|].
  eexists. split; [vm_compute; reflexivity|].
  eapply (stored_category_is_trimmed newline_ext 0 0 c2_world _ c2_frame);
    [reflexivity|vm_compute; reflexivity].
Defined.

Lemma same_but_Category_amounts (flag : string) (d d' : DataFrame) :
  Forall2 same_but_Category d d' ->
  spec_amounts flag d' = spec_amounts flag d.
Proof.
  induction 1 as [|r r' d d' (_ & _ & Hf & Ha) _ IH]; [reflexivity|].
  cbn [spec_amounts]. rewrite IH, Hf, Ha. reflexivity.
Qed.

(** X10: the classification pass, however it ends, leaves the total income and
    the total expense of the frame as they were. *)
Theorem pass_preserves_totals (X : Ext) (df : nat) (w w' : World)
    (d d' : DataFrame) (res : Res nat) :
  heap w !! df = Some d ->
  categorize_transactions X df w = (res, w') ->
  heap w' !! df = Some d' ->
  total_income X d' = total_income X d /\ total_spent X d' = total_spent X d.
Proof.
  intros Hd Hrun Hd'.
  destruct (categorize_transactions_model X df w d Hd) as (_ & Hheap & _).
  rewrite Hrun in Hheap. cbn [snd] in Hheap.
  rewrite Hheap, lookup_insert_eq in Hd'. injection Hd' as <-.
  pose proof (pass_model_frame X d (requests w)) as Hframe.
  unfold total_income, total_spent. rewrite !amounts_where_spec.
  split; f_equal; apply same_but_Category_amounts; exact Hframe.
Qed.

Lemma pass_preserves_totals_witness :
  heap two_empty_world !! 0%nat = Some two_empty_frame /\
  exists w' d',
    categorize_transactions second_fails_ext 0 two_empty_world = (Raise rate_limit, w') /\
    heap w' !! 0%nat = Some d' /\
    total_income second_fails_ext d' = total_income second_fails_ext two_empty_frame /\
    total_spent second_fails_ext d' = total_spent second_fails_ext two_empty_frame.
Proof.
  split; [reflexivity|].
  eexists. eexists. split; [vm_compute; reflexivity|].
  split; [vm_compute; reflexivity|].
  eapply (pass_preserves_totals second_fails_ext 0 two_empty_world _ two_empty_frame);
    [reflexivity|vm_compute; reflexivity|vm_compute; reflexivity].
Defined.


(** X26: when every request to the service succeeds and returns a label (a
    text with at least one character that is not white space), the pass ends
    normally; a row whose Category was not the empty text, a row whose
    Category is a missing value included, has the same Category afterward,
    and a row whose Category was the empty text has a Category that is not
    empty. *)
Theorem empty_text_rows_get_labels (X : Ext) (df : nat) (w : World) (d : DataFrame) :
  heap w !! df = Some d ->
  (forall n description,
     exists label, answer X n description = Ok label /\ has_visible label = true) ->
  exists w' d',
    categorize_transactions X df w = (Ok df, w') /\
    heap w' !! df = Some d' /\
    length d' = length d /\
    forall i r, d !! i = Some r ->
      exists r', d' !! i = Some r' /\
        (Category r <> Some "" -> Category r' = Category r) /\
        (Category r = Some "" -> exists c, Category r' = Some c /\ c <> "").
Proof.
  intros Hd Hall.
  destruct (categorize_transactions_model X df w d Hd) as (Hres & Hheap & _).
  assert (Hok : (pass_model X (requests w) d).1.1 = Ok tt).
  { apply pass_model_succeeds. intros n s. destruct (Hall n s) as (l & Hl & _).
    exists l. exact Hl. }
  rewrite Hok in Hres.
  pose proof (pass_model_frame X d (requests w)) as Hframe.
  destruct (categorize_transactions X df w) as [res w'] eqn:Hrun.
  cbn [fst snd] in Hres, Hheap. subst res.
  destruct (pass_model X (requests w) d) as [[u d'] n'] eqn:Hm.
  cbn [fst snd] in Hok, Hheap, Hframe. subst u.
  exists w', d'. split; [reflexivity|].
  split; [rewrite Hheap; apply lookup_insert_eq|].
  split; [symmetry; eapply Forall2_length; exact Hframe|].
  intros i r Hi.
  destruct (pass_model_rows X d _ _ _ _ Hm i r Hi) as (r' & Hr' & Hne & Heq).
  exists r'. split; [exact Hr'|]. split.
  - intros Hc. rewrite (Hne Hc). reflexivity.
  - intros Hc. destruct (Heq Hc) as (label & Hans & ->).
    exists (strip label). split; [reflexivity|].
    apply strip_visible.
    destruct (Hall (requests w + empties_before i d)%nat (Description r))
      as (l & Hl & Hv).
    rewrite Hans in Hl. injection Hl as <-. exact Hv.
Qed.

Lemma empty_text_rows_get_labels_witness :
  heap c2_world !! 0%nat = Some c2_frame /\
  (forall n description,
     exists label, answer quiet_ext n description = Ok label /\
                   has_visible label = true) /\
  exists w' d',
    categorize_transactions quiet_ext 0 c2_world = (Ok 0%nat, w') /\
    heap w' !! 0%nat = Some d' /\
    length d' = length c2_frame /\
    forall i r, c2_frame !! i = Some r ->
      exists r', d' !! i = Some r' /\
        (Category r <> Some "" -> Category r' = Category r) /\
        (Category r = Some "" -> exists c, Category r' = Some c /\ c <> "").
Proof.
  assert (Hall : forall n description,
            exists label, answer quiet_ext n description = Ok label /\
                          has_visible label = true).
  { intros n s. exists "Miscellaneous". split; reflexivity. }
  split; [reflexivity|]. split; [exact Hall|].
  apply (empty_text_rows_get_labels quiet_ext 0 c2_world c2_frame); [reflexivity|exact Hall].
Defined.


(** ** The Data Loader: what each source yields *)

Lemma fresh_frame_unused (w : World) :
  heap w !! fresh (dom (heap w) ∪ bare w) = None.
Proof.
  apply not_elem_of_dom. intros Hin.
  apply (is_fresh (dom (heap w) ∪ bare w)). apply elem_of_union. left. exact Hin.
Qed.

(** X11: with a file at the expected path the file source follows the parser: the
    table it parses becomes a new frame beside the existing ones, an error
    it raises leaves [load_from_csv] as it is and no frame is made; the
    files are not changed either way. *)
Theorem csv_source_follows_parser (X : Ext) (w : World) (content : string) :
  files w !! csv_path = Some content ->
  (forall d, pd_read_csv X content = Ok d ->
     exists l w',
       load_from_csv X w = (Ok l, w') /\
       heap w !! l = None /\
       heap w' = <[l := d]> (heap w) /\
       files w' = files w /\
       trace w' = trace w ++ [EvExists csv_path; EvReadCsv csv_path]) /\
  (forall e, pd_read_csv X content = Raise e ->
     exists w',
       load_from_csv X w = (Raise e, w') /\
       heap w' = heap w /\
       files w' = files w).
Proof.
  intros Hfile.
  assert (Hex : bool_decide (is_Some (files w !! csv_path)) = true).
  { apply bool_decide_eq_true_2. rewrite Hfile. eexists. reflexivity. }
  split.
  - intros d Hd. eexists. eexists. split.
    + unfold load_from_csv, os_path_exists, read_csv, bind, emit, lift_res, new_frame.
      cbn. rewrite Hex. cbn. rewrite Hfile, Hd. reflexivity.
    + cbn. split; [apply fresh_frame_unused|]. split; [reflexivity|].
      split; [reflexivity|]. rewrite <- app_assoc. reflexivity.
  - intros e He. eexists. split.
    + unfold load_from_csv, os_path_exists, read_csv, bind, emit, lift_res.
      cbn. rewrite Hex. cbn. rewrite Hfile, He. reflexivity.
    + cbn. split; reflexivity.
Qed.

Lemma csv_source_follows_parser_witness :
  files csv_world !! csv_path = Some csv_text /\
  (exists l w', load_from_csv csv_ext csv_world = (Ok l, w') /\
                heap w' = <[l := c1_frame]> (heap csv_world)) /\
  (exists w', load_from_csv bad_csv_ext csv_world = (Raise parse_error, w') /\
              heap w' = heap csv_world).
Proof.
  split; [reflexivity|].
  destruct (csv_source_follows_parser csv_ext csv_world _ eq_refl) as [Hok _].
  destruct (csv_source_follows_parser bad_csv_ext csv_world _ eq_refl) as [_ Hbad].
  split.
  - destruct (Hok c1_frame eq_refl) as (l & w' & Hrun & _ & Hheap & _).
    exists l, w'. split; assumption.
  - destruct (Hbad parse_error eq_refl) as (w' & Hrun & Hheap & _).
    exists w'. split; assumption.
Defined.

(** X12: the remote-sheet source hands the name of the key file and the
    address of the sheet on as it finds them in the environment, set or
    not, together with the file system the key file is read from, and
    follows the service: the records it returns (at least one) become a new
    frame, an error it raises leaves [load_from_google_sheets] as it is and
    no frame is made; the local data file is not looked at and no file is
    changed. *)
Theorem sheet_source_follows_service (X : Ext) (w : World) :
  let keyfile := environ w !! "GOOGLE_APPLICATION_CREDENTIALS" in
  let url := environ w !! "DUMMY_DATA_SPREADSHEET" in
  (forall d, sheet_records X (files w) keyfile url = Ok d -> d <> [] ->
     exists l w',
       load_from_google_sheets X w = (Ok l, w') /\
       heap w !! l = None /\
       heap w' = <[l := d]> (heap w) /\
       files w' = files w /\
       trace w' = trace w ++ [EvSheets keyfile url]) /\
  (forall e, sheet_records X (files w) keyfile url = Raise e ->
     exists w',
       load_from_google_sheets X w = (Raise e, w') /\
       heap w' = heap w /\
       files w' = files w /\
       trace w' = trace w ++ [EvSheets keyfile url]).
Proof.
  intros keyfile url. split.
  - intros d Hd Hne. destruct d as [|r d]; [contradiction|].
    eexists. eexists. split.
    + unfold load_from_google_sheets, getenv, bind, emit, new_frame.
      cbn. fold keyfile url. rewrite Hd. reflexivity.
    + cbn. split; [apply fresh_frame_unused|]. repeat split; reflexivity.
  - intros e He. eexists. split.
    + unfold load_from_google_sheets, getenv, bind, emit.
      cbn. fold keyfile url. rewrite He. reflexivity.
    + cbn. repeat split; reflexivity.
Qed.

Lemma ascii_lower_inv (c : Ascii.ascii) (n : nat) :
  (97 <= n <= 122)%nat ->
  ascii_lower c = Ascii.ascii_of_nat n ->
  c = Ascii.ascii_of_nat n \/ c = Ascii.ascii_of_nat (n - 32).
Proof.
  intros Hn. unfold ascii_lower.
  destruct ((65 <=? Ascii.nat_of_ascii c)%nat && (Ascii.nat_of_ascii c <=? 90)%nat) eqn:Hup.
  - apply andb_true_iff in Hup as [H1 H2].
    apply Nat.leb_le in H1. apply Nat.leb_le in H2.
    intros Heq. right.
    apply (f_equal Ascii.nat_of_ascii) in Heq.
    rewrite !Ascii.nat_ascii_embedding in Heq by lia.
    replace (n - 32)%nat with (Ascii.nat_of_ascii c) by lia.
    symmetry. apply Ascii.ascii_nat_embedding.
  - intros ->. left. reflexivity.
Qed.

Lemma lower_true_inv (v : string) :
  lower v = "true" -> v ∈ true_spellings.
Proof.
  intros H.
  destruct v as [|a [|b [|c [|d [|x v]]]]]; try discriminate H.
  cbn [lower] in H. injection H as Ha Hb Hc Hd.
  apply (ascii_lower_inv a 116) in Ha; [|lia].
  apply (ascii_lower_inv b 114) in Hb; [|lia].
  apply (ascii_lower_inv c 117) in Hc; [|lia].
  apply (ascii_lower_inv d 101) in Hd; [|lia].
  apply list_elem_of_In.
  destruct Ha as [-> | ->]; destruct Hb as [-> | ->];
    destruct Hc as [-> | ->]; destruct Hd as [-> | ->];
    vm_compute; repeat (first [left; reflexivity | right]).
Qed.

(** X13: the flag is the word true in any mix of upper and lower case and nothing
    else: the remote sheet is selected exactly when [USE_GOOGLE_SHEETS] is
    set to one of its sixteen spellings; values such as 1, yes or on, the
    empty value and an unset variable all select the local file. *)
Theorem flag_is_the_word_true (w : World) :
  selects_sheet w <->
  exists v, environ w !! "USE_GOOGLE_SHEETS" = Some v /\ v ∈ true_spellings.
Proof.
  unfold selects_sheet. split.
  - destruct (environ w !! "USE_GOOGLE_SHEETS") as [v|] eqn:Hv; cbn [default].
    + intros H. exists v. split; [reflexivity|]. apply lower_true_inv, H.
    + intros H. vm_compute in H. discriminate H.
  - intros (v & -> & Hin). cbn [default]. unfold true_spellings in Hin.
    repeat (apply elem_of_cons in Hin as [->|Hin]; [reflexivity|]).
    inversion Hin.
Qed.

Lemma sheet_source_follows_service_witness :
  sheet_records sheet_ext (files sheet_loaded_world)
                (environ sheet_loaded_world !! "GOOGLE_APPLICATION_CREDENTIALS")
                (environ sheet_loaded_world !! "DUMMY_DATA_SPREADSHEET") = Ok sheet_frame /\
  sheet_frame <> [] /\
  exists l w',
    load_from_google_sheets sheet_ext sheet_loaded_world = (Ok l, w') /\
    heap w' = <[l := sheet_frame]> (heap sheet_loaded_world) /\
    trace w' = [EvSheets (Some "credentials.json") (Some "https://sheet")].
Proof.
  assert (Hrec : sheet_records sheet_ext (files sheet_loaded_world)
                   (environ sheet_loaded_world !! "GOOGLE_APPLICATION_CREDENTIALS")
                   (environ sheet_loaded_world !! "DUMMY_DATA_SPREADSHEET") = Ok sheet_frame)
    by (vm_compute; reflexivity).
  assert (Hne : sheet_frame <> []) by discriminate.
  split; [exact Hrec|]. split; [exact Hne|].
  destruct (proj1 (sheet_source_follows_service sheet_ext sheet_loaded_world)
              sheet_frame Hrec Hne)
    as (l & w' & Hrun & _ & Hheap & _ & Htrace).
  exists l, w'. split; [exact Hrun|]. split; [exact Hheap|].
  rewrite Htrace. vm_compute. reflexivity.
Defined.

(** ** The setup cell: where the key comes from *)

(** X14: a key that is set and not empty lets the setup cell pass and becomes
    [openai.api_key]; a variable of the process environment wins over the
    [.env] file, for the key as for every other variable, and the [.env] file
    only adds the variables that were not set. *)
Theorem setup_takes_environment_first (X : Ext) (w : World) (k : string) :
  merged_environ X w !! "OPENAI_API_KEY" = Some k ->
  k <> "" ->
  exists w',
    cell_setup X w = (Ok tt, w') /\
    api_key w' = Some k /\
    (forall name v, environ w !! name = Some v -> environ w' !! name = Some v) /\
    (forall name, environ w !! name = None -> environ w' !! name = dotenv X !! name) /\
    (forall v, environ w !! "OPENAI_API_KEY" = Some v -> k = v) /\
    trace w' = trace w /\ files w' = files w /\ heap w' = heap w /\
    requests w' = requests w.
Proof.
  unfold merged_environ. intros Hk Hne. eexists. split.
  - unfold cell_setup, load_dotenv, getenv, set_api_key, bind. cbn.
    rewrite Hk. cbn. rewrite bool_decide_eq_false_2 by exact Hne. reflexivity.
  - cbn. split; [reflexivity|].
    split; [intros name v Hv; apply lookup_union_Some_l; exact Hv|].
    split; [intros name Hn; apply lookup_union_r; exact Hn|].
    split.
    + intros v Hv. rewrite (lookup_union_Some_l _ _ _ _ Hv) in Hk. congruence.
    + repeat split; reflexivity.
Qed.

Lemma setup_takes_environment_first_witness :
  merged_environ csv_ext keyed_world !! "OPENAI_API_KEY" = Some "sk-env" /\
  "sk-env" <> "" /\
  exists w', cell_setup csv_ext keyed_world = (Ok tt, w') /\ api_key w' = Some "sk-env".
Proof.
  assert (Hne : "sk-env" <> "") by discriminate.
  split; [reflexivity|]. split; [exact Hne|].
  destruct (setup_takes_environment_first csv_ext keyed_world "sk-env" eq_refl Hne)
    as (w' & Hrun & Hkey & _).
  exists w'. split; assumption.
Defined.

(** X15: a key variable set to the empty text is refused like a missing one, and
    it hides a key written in the [.env] file: the setup cell raises its
    [ValueError] whatever the file says. *)
Theorem setup_rejects_empty_key (X : Ext) (w : World) :
  environ w !! "OPENAI_API_KEY" = Some "" ->
  exists w',
    cell_setup X w = (Raise key_error, w') /\
    api_key w' = Some "" /\
    trace w' = trace w /\ requests w' = requests w.
Proof.
  intros Hk. eexists. split.
  - unfold cell_setup, load_dotenv, getenv, set_api_key, bind. cbn.
    rewrite (lookup_union_Some_l _ _ _ _ Hk). cbn. reflexivity.
  - cbn. repeat split; reflexivity.
Qed.

Lemma setup_rejects_empty_key_witness :
  environ csv_world !! "OPENAI_API_KEY" = Some "" /\
  dotenv csv_ext !! "OPENAI_API_KEY" = Some "sk-test" /\
  exists w', cell_setup csv_ext csv_world = (Raise key_error, w').
Proof.
  split; [reflexivity|]. split; [reflexivity|].
  destruct (setup_rejects_empty_key csv_ext csv_world eq_refl) as (w' & Hrun & _).
  exists w'. exact Hrun.
Defined.

(** ** The Report Renderer: the substitutions as a whole *)

Lemma append_associative (a b c : string) : (a +:+ b) +:+ c = a +:+ (b +:+ c).
Proof.
  induction a as [|x a IH]; [reflexivity|].
  rewrite !append_cons, IH. reflexivity.
Qed.

Lemma run_app_sep (c d : Ascii.ascii) (a b : string) :
  d <> c -> run c (a +:+ String d b) = run c a.
Proof.
  intros Hne. induction a as [|x a IH].
  - rewrite append_empty. cbn [run].
    destruct (Ascii.ascii_dec c d); [congruence|reflexivity].
  - rewrite append_cons. cbn [run]. rewrite IH. reflexivity.
Qed.

Lemma run_le_length (c : Ascii.ascii) (a : string) :
  (run c a <= String.length a)%nat.
Proof.
  induction a as [|x a IH]; [reflexivity|].
  cbn [run String.length]. destruct (Ascii.ascii_dec c x); lia.
Qed.

Lemma srep_length (n : nat) (c : Ascii.ascii) : String.length (srep n c) = n.
Proof.
  induction n as [|n IH]; [reflexivity|].
  cbn [srep String.length]. rewrite IH. reflexivity.
Qed.

(** A token made of characters [c] never reaches over another character. *)
Lemma replace_across_separator (n : nat) (c d : Ascii.ascii) (new b : string) :
  d <> c ->
  forall a k, (k <= String.length a)%nat ->
    replace_from (srep (S n) c) new k (a +:+ String d b) =
    replace_from (srep (S n) c) new k a +:+
    String d (replace_from (srep (S n) c) new 0 b).
Proof.
  intros Hne. induction a as [|x a IH]; intros k Hk.
  - cbn [String.length] in Hk. replace k with 0%nat by lia.
    rewrite append_empty.
    rewrite (replace_from_match (srep (S n) c) new c (srep n c) d b eq_refl).
    rewrite prefix_srep.
    assert (Hrun : run c (String d b) = 0%nat).
    { cbn [run]. destruct (Ascii.ascii_dec c d); [congruence|reflexivity]. }
    rewrite Hrun. reflexivity.
  - rewrite append_cons. destruct k as [|k].
    + rewrite !(replace_from_match (srep (S n) c) new c (srep n c) x _ eq_refl).
      rewrite !prefix_srep. cbn [run]. rewrite run_app_sep by exact Hne.
      pose proof (run_le_length c a) as Hl.
      destruct (Ascii.ascii_dec c x) as [Hx|Hx].
      * destruct (S n <=? S (run c a))%nat eqn:Hp.
        -- apply Nat.leb_le in Hp.
           rewrite srep_length, IH, append_associative by lia. reflexivity.
        -- rewrite IH, append_cons by lia. reflexivity.
      * cbn [Nat.leb]. rewrite IH, append_cons by lia. reflexivity.
    + cbn [replace_from]. apply IH. cbn [String.length] in Hk. lia.
Qed.

(** The replacement of a one-character token goes through a concatenation. *)
Lemma replace_char_app (c : Ascii.ascii) (new a b : string) :
  replace (String c "") new (a +:+ b) =
  replace (String c "") new a +:+ replace (String c "") new b.
Proof.
  unfold replace. induction a as [|x a IH]; [reflexivity|].
  rewrite append_cons.
  rewrite !(replace_from_match (String c "") new c "" x _ eq_refl).
  cbn [String.prefix String.length Nat.sub].
  destruct (Ascii.ascii_dec c x).
  - rewrite !prefix_empty, IH, append_associative. reflexivity.
  - rewrite IH. reflexivity.
Qed.

Lemma bold_across_line_feed (a b : string) :
  replace "**" "" (a +:+ String line_feed b) =
  replace "**" "" a +:+ String line_feed (replace "**" "" b).
Proof.
  exact (replace_across_separator 1 star line_feed "" b ltac:(discriminate)
           a 0%nat ltac:(lia)).
Qed.

Lemma heading_across_line_feed (a b : string) :
  replace "###" "<h3>" (a +:+ String line_feed b) =
  replace "###" "<h3>" a +:+ String line_feed (replace "###" "<h3>" b).
Proof.
  exact (replace_across_separator 2 hash line_feed "<h3>" b ltac:(discriminate)
           a 0%nat ltac:(lia)).
Qed.

Lemma line_feed_step (b : string) :
  replace (String line_feed "") "<br>" (String line_feed b) =
  "<br>" +:+ replace (String line_feed "") "<br>" b.
Proof.
  unfold replace.
  rewrite (replace_from_match (String line_feed "") "<br>" line_feed "" line_feed b eq_refl).
  cbn [String.prefix String.length Nat.sub].
  destruct (Ascii.ascii_dec line_feed line_feed) as [_|H]; [|contradiction].
  rewrite prefix_empty. reflexivity.
Qed.

(** X16: the substitutions work line by line: the markup of two texts joined by a
    line feed is the markup of the first, the line-break tag and the markup
    of the second. *)
Theorem markup_line_by_line (a b : string) :
  markup (a +:+ nl +:+ b) = markup a +:+ "<br>" +:+ markup b.
Proof.
  unfold markup.
  change (a +:+ nl +:+ b) with (a +:+ String line_feed b).
  rewrite bold_across_line_feed, heading_across_line_feed.
  change nl with (String line_feed "").
  rewrite replace_char_app, line_feed_step. reflexivity.
Qed.

(** X17: marking up twice is marking up once. *)
Theorem markup_twice (text : string) : markup (markup text) = markup text.
Proof.
  apply markup_plain;
    [apply markup_no_bold|apply markup_no_heading|apply markup_no_line_break].
Qed.

(** ** The Summary Generator *)

(** X18: the summary handed on is the answer of the service without the white
    space around it; producing it costs one request and leaves frames and
    files alone. *)
Theorem summary_is_trimmed_answer (X : Ext) (df : nat) (w : World) (d : DataFrame)
    (content : string) :
  heap w !! df = Some d ->
  chat_completion X (requests w) "gpt-4o-mini" (summary_request X d) = Ok content ->
  exists w',
    generate_financial_summary X df w = (Ok (strip content), w') /\
    starts_blank (strip content) = false /\
    ends_blank (strip content) = false /\
    heap w' = heap w /\ files w' = files w /\
    requests w' = S (requests w).
Proof.
  intros Hd Hc. eexists. split.
  - unfold generate_financial_summary, get_column, ChatCompletion_create, bind, emit, ret.
    cbn. rewrite Hd. cbn. rewrite Hc. reflexivity.
  - cbn. split; [apply strip_spec|]. split; [apply strip_spec|].
    repeat split; reflexivity.
Qed.

Lemma summary_is_trimmed_answer_witness :
  heap c9_world !! 0%nat = Some c1_keyed_frame /\
  chat_completion csv_ext (requests c9_world) "gpt-4o-mini"
                  (summary_request csv_ext c1_keyed_frame) = Ok " Groceries " /\
  exists w',
    generate_financial_summary csv_ext 0 c9_world = (Ok "Groceries", w').
Proof.
  split; [reflexivity|]. split; [reflexivity|].
  destruct (summary_is_trimmed_answer csv_ext 0 c9_world c1_keyed_frame " Groceries "
              eq_refl eq_refl) as (w' & Hrun & _).
  exists w'. exact Hrun.
Defined.

(** ** The cells in sequence *)

Lemma bind_ok {A B} (m : M A) (k : A -> M B) (w w1 : World) (a : A) :
  m w = (Ok a, w1) -> bind m k w = k a w1.
Proof. intros H. unfold bind. rewrite H. reflexivity. Qed.

Lemma bind_raise {A B} (m : M A) (k : A -> M B) (w w1 : World) (e : Exn) :
  m w = (Raise e, w1) -> bind m k w = (Raise e, w1).
Proof. intros H. unfold bind. rewrite H. reflexivity. Qed.

Lemma setup_passes (X : Ext) (w : World) (k : string) :
  merged_environ X w !! "OPENAI_API_KEY" = Some k -> k <> "" ->
  (cell_install >> cell_setup X) w = (Ok tt, after_setup X w k).
Proof.
  unfold merged_environ. intros Hk Hne.
  unfold cell_install, cell_setup, load_dotenv, getenv, set_api_key, bind, emit.
  cbn. rewrite Hk. cbn. rewrite bool_decide_eq_false_2 by exact Hne. reflexivity.
Qed.

Lemma cell_load_csv (X : Ext) (w : World) (content : string) (d : DataFrame) :
  ~ selects_sheet w ->
  files w !! csv_path = Some content ->
  pd_read_csv X content = Ok d ->
  exists l w1,
    cell_load X w = (Ok l, w1) /\
    heap w !! l = None /\
    heap w1 = <[l := d]> (heap w) /\
    requests w1 = requests w /\ files w1 = files w /\ api_key w1 = api_key w.
Proof.
  unfold selects_sheet. intros Hflag Hfile Hparse.
  exists (fresh (dom (heap w) ∪ bare w)). eexists. split.
  - unfold cell_load, load_data, getenv_default, load_from_csv, os_path_exists,
      read_csv, get_frame, bind, emit, lift_res, new_frame, print, ret. cbn.
    rewrite bool_decide_eq_false_2 by exact Hflag. cbn.
    rewrite Hfile. cbn. rewrite Hfile. cbn. rewrite Hparse. cbn.
    rewrite lookup_insert_eq. reflexivity.
  - cbn. split; [apply fresh_frame_unused|]. repeat split; reflexivity.
Qed.

Lemma cell_load_missing (X : Ext) (w : World) :
  ~ selects_sheet w ->
  files w !! csv_path = None ->
  exists w1,
    cell_load X w = (Raise not_found, w1) /\
    heap w1 = heap w /\ requests w1 = requests w /\ files w1 = files w /\
    trace w1 = trace w ++ [EvExists csv_path].
Proof.
  unfold selects_sheet. intros Hflag Hfile. eexists. split.
  - unfold cell_load, load_data, getenv_default, load_from_csv, os_path_exists,
      bind, emit. cbn.
    rewrite bool_decide_eq_false_2 by exact Hflag. cbn.
    rewrite Hfile. cbn. reflexivity.
  - cbn. repeat split; reflexivity.
Qed.

Lemma cell_categorize_run (X : Ext) (df : nat) (w : World) (d : DataFrame) :
  heap w !! df = Some d ->
  exists w1,
    cell_categorize X df w =
      (match (pass_model X (requests w) d).1.1 with
       | Ok _ => Ok df
       | Raise e => Raise e
       end, w1) /\
    heap w1 = <[df := (pass_model X (requests w) d).1.2]> (heap w) /\
    requests w1 = (pass_model X (requests w) d).2 /\
    files w1 = files w.
Proof.
  intros Hd.
  destruct (categorize_transactions_model X df w d Hd) as (Hres & Hheap & Hreq & Hfiles & _).
  unfold cell_categorize, bind.
  destruct (categorize_transactions X df w) as [res w0].
  cbn [fst snd] in Hres, Hheap, Hreq, Hfiles. rewrite Hres.
  destruct (pass_model X (requests w) d).1.1 as [u|e].
  - unfold get_frame. rewrite Hheap, lookup_insert_eq.
    eexists. split; [reflexivity|]. cbn. rewrite Hheap, Hreq, Hfiles.
    repeat split; reflexivity.
  - exists w0. repeat split; assumption.
Qed.

Lemma cell_summary_ok (X : Ext) (df : nat) (w : World) (d : DataFrame) (s : string) :
  heap w !! df = Some d ->
  chat_completion X (requests w) "gpt-4o-mini" (summary_request X d) = Ok s ->
  exists w1,
    cell_summary X df w = (Ok (strip s), w1) /\
    heap w1 = heap w /\ requests w1 = S (requests w) /\ files w1 = files w.
Proof.
  intros Hd Hs. eexists. split.
  - unfold cell_summary, generate_financial_summary, get_column,
      ChatCompletion_create, bind, emit, print, ret.
    cbn. rewrite Hd. cbn. rewrite Hs. reflexivity.
  - cbn. repeat split; reflexivity.
Qed.

Lemma cell_advice_ok (X : Ext) (df : nat) (w : World) (d : DataFrame) (a : string) :
  heap w !! df = Some d ->
  chat_completion X (requests w) "gpt-4o-mini"
    (advice_request X d (PyInt 30) (PyStr "Urban") (PyStr "Reading, Traveling")) = Ok a ->
  exists w1,
    cell_advice X df w = (Ok a, w1) /\
    heap w1 = heap w /\ requests w1 = S (requests w) /\ files w1 = files w.
Proof.
  unfold advice_request. intros Hd Ha. eexists. split.
  - unfold cell_advice, generate_personalized_advice, get_frame,
      ChatCompletion_create, bind, emit, print, ret.
    cbn. rewrite Hd. cbn. rewrite Ha. reflexivity.
  - cbn. repeat split; reflexivity.
Qed.

Lemma cell_report_ok (X : Ext) (summary advice : string) (w : World)
    (fs : gmap string string) :
  pdfkit_engine X (html_content summary advice) "financial_report.pdf" pdf_options
                (files w) = (None, fs) ->
  exists w1,
    cell_report X summary advice w = (Ok tt, w1) /\
    heap w1 = heap w /\ requests w1 = requests w /\ files w1 = fs /\
    last (trace w1) = Some (EvPrint "PDF report has been generated.").
Proof.
  intros Hpdf. eexists. split.
  - unfold cell_report, create_pdf_report, pdfkit_from_string, bind, emit, print.
    cbn. rewrite Hpdf. reflexivity.
  - cbn. split; [reflexivity|]. split; [reflexivity|]. split; [reflexivity|].
    apply last_snoc.
Qed.

Lemma setup_then {B} (X : Ext) (w : World) (k : string) (rest : M B) :
  merged_environ X w !! "OPENAI_API_KEY" = Some k -> k <> "" ->
  (cell_install >> cell_setup X >> rest) w = rest (after_setup X w k).
Proof.
  unfold merged_environ. intros Hk Hne.
  unfold cell_install, cell_setup, load_dotenv, getenv, set_api_key, bind, emit.
  cbn. rewrite Hk. cbn. rewrite bool_decide_eq_false_2 by exact Hne. reflexivity.
Qed.

(** X19: with the key set but no file at the expected path (and the flag not
    selecting the remote sheet), the run passes the setup cell and stops in
    the loader with its [FileNotFoundError]: no request has been sent, no
    frame made and no file written. *)
Theorem run_stops_at_missing_file (X : Ext) (w : World) (k : string) :
  merged_environ X w !! "OPENAI_API_KEY" = Some k -> k <> "" ->
  lower (default "false" (merged_environ X w !! "USE_GOOGLE_SHEETS")) <> "true" ->
  files w !! csv_path = None ->
  exists w',
    run_all X w = (Raise not_found, w') /\
    requests w' = requests w /\ heap w' = heap w /\ files w' = files w /\
    trace w' = trace w ++ [install_event; EvExists csv_path].
Proof.
  intros Hk Hne Hflag Hfile. unfold run_all.
  rewrite (setup_then X w k (pipeline X) Hk Hne).
  destruct (cell_load_missing X (after_setup X w k) Hflag Hfile)
    as (w1 & Hload & Hheap & Hreq & Hfiles & Htrace).
  exists w1. unfold pipeline. rewrite (bind_raise _ _ _ _ _ Hload).
  split; [reflexivity|]. split; [exact Hreq|]. split; [exact Hheap|].
  split; [exact Hfiles|]. rewrite Htrace. cbn. rewrite <- app_assoc. reflexivity.
Qed.

Lemma run_stops_at_missing_file_witness :
  merged_environ quiet_ext no_file_world !! "OPENAI_API_KEY" = Some "sk-env" /\
  "sk-env" <> "" /\
  lower (default "false" (merged_environ quiet_ext no_file_world !! "USE_GOOGLE_SHEETS"))
    <> "true" /\
  files no_file_world !! csv_path = None /\
  exists w', run_all quiet_ext no_file_world = (Raise not_found, w').
Proof.
  assert (Hk : merged_environ quiet_ext no_file_world !! "OPENAI_API_KEY" = Some "sk-env")
    by (vm_compute; reflexivity).
  assert (Hne : "sk-env" <> "") by discriminate.
  assert (Hflag : lower (default "false"
                    (merged_environ quiet_ext no_file_world !! "USE_GOOGLE_SHEETS"))
                  <> "true") by (vm_compute; discriminate).
  assert (Hfile : files no_file_world !! csv_path = None) by reflexivity.
  split; [exact Hk|]. split; [exact Hne|]. split; [exact Hflag|]. split; [exact Hfile|].
  destruct (run_stops_at_missing_file quiet_ext no_file_world "sk-env" Hk Hne Hflag Hfile)
    as (w' & Hrun & _).
  exists w'. exact Hrun.
Defined.

Lemma cell_load_sheet (X : Ext) (w : World) (d : DataFrame) :
  selects_sheet w ->
  sheet_records X (files w) (environ w !! "GOOGLE_APPLICATION_CREDENTIALS")
                (environ w !! "DUMMY_DATA_SPREADSHEET") = Ok d ->
  d <> [] ->
  exists l w1,
    cell_load X w = (Ok l, w1) /\
    heap w !! l = None /\
    heap w1 = <[l := d]> (heap w) /\
    requests w1 = requests w /\ files w1 = files w /\ api_key w1 = api_key w.
Proof.
  unfold selects_sheet. intros Hflag Hsheet Hne.
  destruct d as [|r d]; [contradiction|].
  exists (fresh (dom (heap w) ∪ bare w)). eexists. split.
  - unfold cell_load, load_data, getenv_default, load_from_google_sheets, getenv,
      get_frame, bind, emit, new_frame, print, ret. cbn.
    rewrite bool_decide_eq_true_2 by exact Hflag. cbn.
    rewrite Hsheet. cbn. rewrite lookup_insert_eq. reflexivity.
  - cbn. split; [apply fresh_frame_unused|]. repeat split; reflexivity.
Qed.

(** The cells after the loading, when nothing fails. *)
Lemma cells_after_load_ok (X : Ext) (l : nat) (w1 : World) (s a : string)
    (d d1 : DataFrame) (n1 : nat) (fs : gmap string string) :
  heap w1 !! l = Some d ->
  pass_model X (requests w1) d = (Ok tt, d1, n1) ->
  chat_completion X n1 "gpt-4o-mini" (summary_request X d1) = Ok s ->
  chat_completion X (S n1) "gpt-4o-mini"
    (advice_request X d1 (PyInt 30) (PyStr "Urban") (PyStr "Reading, Traveling")) = Ok a ->
  pdfkit_engine X (html_content (strip s) a) "financial_report.pdf" pdf_options
                (files w1) = (None, fs) ->
  exists w',
    (let* df := cell_categorize X l in
     let* summary := cell_summary X df in
     let* advice := cell_advice X df in
     cell_report X summary advice) w1 = (Ok tt, w') /\
    heap w' = <[l := d1]> (heap w1) /\
    requests w' = S (S n1) /\
    files w' = fs /\
    last (trace w') = Some (EvPrint "PDF report has been generated.").
Proof.
  intros Hd1 Hpass Hs Ha Hpdf.
  destruct (cell_categorize_run X l w1 d Hd1) as (w2 & Hcat & Hheap2 & Hreq2 & Hfiles2).
  rewrite Hpass in Hcat, Hheap2, Hreq2. cbn [fst snd] in Hcat, Hheap2, Hreq2.
  assert (Hd2 : heap w2 !! l = Some d1) by (rewrite Hheap2; apply lookup_insert_eq).
  rewrite <- Hreq2 in Hs.
  destruct (cell_summary_ok X l w2 d1 s Hd2 Hs) as (w3 & Hsum & Hheap3 & Hreq3 & Hfiles3).
  assert (Hd3 : heap w3 !! l = Some d1) by (rewrite Hheap3; exact Hd2).
  rewrite <- Hreq2, <- Hreq3 in Ha.
  destruct (cell_advice_ok X l w3 d1 a Hd3 Ha) as (w4 & Hadv & Hheap4 & Hreq4 & Hfiles4).
  assert (Hpdf4 : pdfkit_engine X (html_content (strip s) a) "financial_report.pdf"
                    pdf_options (files w4) = (None, fs)).
  { rewrite Hfiles4, Hfiles3, Hfiles2. exact Hpdf. }
  destruct (cell_report_ok X (strip s) a w4 fs Hpdf4)
    as (w5 & Hrep & Hheap5 & Hreq5 & Hfiles5 & Hlast).
  exists w5.
  rewrite (bind_ok _ _ _ _ _ Hcat), (bind_ok _ _ _ _ _ Hsum), (bind_ok _ _ _ _ _ Hadv), Hrep.
  split; [reflexivity|].
  split; [rewrite Hheap5, Hheap4, Hheap3, Hheap2; reflexivity|].
  split; [rewrite Hreq5, Hreq4, Hreq3, Hreq2; reflexivity|].
  split; [exact Hfiles5|exact Hlast].
Qed.

(** A frame without a Category equal to the empty text passes the
    classifier untouched. *)
Lemma pass_model_idle (X : Ext) (d : DataFrame) :
  (forall r, r ∈ d -> Category r <> Some "") ->
  forall n, pass_model X n d = (Ok tt, d, n).
Proof.
  induction d as [|r rest IH]; intros Hall n; [reflexivity|].
  cbn [pass_model]. rewrite decide_False by (apply Hall; left).
  rewrite IH by (intros r' Hr'; apply Hall; right; exact Hr'). reflexivity.
Qed.

(** X20: with the remote sheet selected, a request that fails during
    classification ends the whole run with the service's exception: the
    frame made of the records keeps the categories stored before the
    failure, no summary or advice is asked for and no document is
    written. *)
Theorem run_stops_at_failed_classification (X : Ext) (w : World) (k : string)
    (d d1 : DataFrame) (n1 : nat) (e : Exn) :
  merged_environ X w !! "OPENAI_API_KEY" = Some k -> k <> "" ->
  lower (default "false" (merged_environ X w !! "USE_GOOGLE_SHEETS")) = "true" ->
  sheet_records X (files w)
                (merged_environ X w !! "GOOGLE_APPLICATION_CREDENTIALS")
                (merged_environ X w !! "DUMMY_DATA_SPREADSHEET") = Ok d ->
  pass_model X (requests w) d = (Raise e, d1, n1) ->
  exists l w',
    run_all X w = (Raise e, w') /\
    heap w !! l = None /\
    heap w' = <[l := d1]> (heap w) /\
    requests w' = n1 /\
    files w' = files w.
Proof.
  intros Hk Hne Hflag Hsheet Hpass. unfold run_all.
  rewrite (setup_then X w k (pipeline X) Hk Hne).
  assert (Hd : d <> []) by (intros ->; discriminate Hpass).
  destruct (cell_load_sheet X (after_setup X w k) d Hflag Hsheet Hd)
    as (l & w1 & Hload & Hfresh & Hheap1 & Hreq1 & Hfiles1 & _).
  cbn [after_setup heap requests files] in Hfresh, Hheap1, Hreq1, Hfiles1.
  assert (Hd1 : heap w1 !! l = Some d) by (rewrite Hheap1; apply lookup_insert_eq).
  destruct (cell_categorize_run X l w1 d Hd1) as (w2 & Hcat & Hheap2 & Hreq2 & Hfiles2).
  rewrite Hreq1, Hpass in Hcat, Hheap2, Hreq2. cbn [fst snd] in Hcat, Hheap2, Hreq2.
  exists l, w2. unfold pipeline.
  rewrite (bind_ok _ _ _ _ _ Hload), (bind_raise _ _ _ _ _ Hcat).
  split; [reflexivity|]. split; [exact Hfresh|].
  split; [rewrite Hheap2, Hheap1; apply insert_insert_eq|].
  split; [exact Hreq2|]. congruence.
Qed.

(** X21: a run from the local file in which nothing fails: the file is parsed
    into a new frame; the frame [pd.read_csv] builds has no Category equal
    to the empty text, so the classifier sends no request and leaves the
    frame as parsed; the summary is asked for with the figures of that frame
    and the advice with its table, in this order: two requests in all; the
    document is made from the stripped summary and the advice as returned,
    and the files at the end are those the rendering engine left. *)
Theorem run_end_to_end (X : Ext) (w : World) (k content s a : string)
    (d : DataFrame) (fs : gmap string string) :
  merged_environ X w !! "OPENAI_API_KEY" = Some k -> k <> "" ->
  lower (default "false" (merged_environ X w !! "USE_GOOGLE_SHEETS")) <> "true" ->
  files w !! csv_path = Some content ->
  pd_read_csv X content = Ok d ->
  (forall r, r ∈ d -> Category r <> Some "") ->
  chat_completion X (requests w) "gpt-4o-mini" (summary_request X d) = Ok s ->
  chat_completion X (S (requests w)) "gpt-4o-mini"
    (advice_request X d (PyInt 30) (PyStr "Urban") (PyStr "Reading, Traveling")) = Ok a ->
  pdfkit_engine X (html_content (strip s) a) "financial_report.pdf" pdf_options
                (files w) = (None, fs) ->
  exists l w',
    run_all X w = (Ok tt, w') /\
    heap w !! l = None /\
    heap w' = <[l := d]> (heap w) /\
    requests w' = S (S (requests w)) /\
    files w' = fs /\
    last (trace w') = Some (EvPrint "PDF report has been generated.").
Proof.
  intros Hk Hne Hflag Hfile Hparse Hna Hs Ha Hpdf. unfold run_all.
  rewrite (setup_then X w k (pipeline X) Hk Hne).
  destruct (cell_load_csv X (after_setup X w k) content d Hflag Hfile Hparse)
    as (l & w1 & Hload & Hfresh & Hheap1 & Hreq1 & Hfiles1 & _).
  cbn [after_setup heap requests files] in Hfresh, Hheap1, Hreq1, Hfiles1.
  assert (Hd1 : heap w1 !! l = Some d) by (rewrite Hheap1; apply lookup_insert_eq).
  rewrite <- Hreq1 in Hs, Ha. rewrite <- Hfiles1 in Hpdf.
  destruct (cells_after_load_ok X l w1 s a d d (requests w1) fs Hd1
              (pass_model_idle X d Hna (requests w1)) Hs Ha Hpdf)
    as (w' & Hrun & Hheap & Hreq & Hfs & Hlast).
  exists l, w'. unfold pipeline. rewrite (bind_ok _ _ _ _ _ Hload).
  split; [exact Hrun|]. split; [exact Hfresh|].
  split; [rewrite Hheap, Hheap1; apply insert_insert_eq|].
  split; [rewrite Hreq, Hreq1; reflexivity|].
  split; [exact Hfs|exact Hlast].
Qed.

Lemma run_stops_at_failed_classification_witness :
  merged_environ failing_run_ext sheet_run_world !! "OPENAI_API_KEY" = Some "sk-env" /\
  sheet_records failing_run_ext (files sheet_run_world) (Some "credentials.json")
                (Some "https://sheet") = Ok two_empty_frame /\
  exists l w',
    run_all failing_run_ext sheet_run_world = (Raise rate_limit, w') /\
    heap w' !! l = Some [with_Category "Utilities"
                           (mkTransaction "2024-09-03" "Sydney Water Bill" (Some "")
                                          "Expense" (Int64 8075));
                         mkTransaction "2024-09-04" "Netflix Subscription" (Some "")
                                       "Expense" (Int64 1399)] /\
    requests w' = 2%nat /\
    files w' = files sheet_run_world.
Proof.
  split; [vm_compute; reflexivity|]. split; [vm_compute; reflexivity|].
  edestruct (run_stops_at_failed_classification failing_run_ext sheet_run_world "sk-env")
    as (l & w' & Hrun & _ & Hheap & Hreq & Hfiles);
    [vm_compute; reflexivity | discriminate | vm_compute; reflexivity
    | vm_compute; reflexivity | vm_compute; reflexivity | ].
  exists l, w'. split; [exact Hrun|].
  split; [rewrite Hheap; apply lookup_insert_eq|].
  split; [exact Hreq|exact Hfiles].
Defined.

Lemma run_end_to_end_witness :
  merged_environ csv_ext keyed_world !! "OPENAI_API_KEY" = Some "sk-env" /\
  pd_read_csv csv_ext csv_text = Ok c1_frame /\
  (forall r, r ∈ c1_frame -> Category r <> Some "") /\
  exists w',
    run_all csv_ext keyed_world = (Ok tt, w') /\
    requests w' = 2%nat /\
    files w' !! "financial_report.pdf" = Some "%PDF-1.4 report".
Proof.
  assert (Hna : forall r, r ∈ c1_frame -> Category r <> Some "").
  { intros r Hr. unfold c1_frame in Hr.
    repeat (apply elem_of_cons in Hr as [->|Hr]; [discriminate|]).
    inversion Hr. }
  split; [vm_compute; reflexivity|]. split; [reflexivity|]. split; [exact Hna|].
  edestruct (run_end_to_end csv_ext keyed_world "sk-env")
    as (l & w' & Hrun & _ & _ & Hreq & Hfiles & _);
    [vm_compute; reflexivity | discriminate | vm_compute; discriminate
    | reflexivity | reflexivity | exact Hna
    | vm_compute; reflexivity | vm_compute; reflexivity | vm_compute; reflexivity | ].
  exists w'. split; [exact Hrun|]. split; [exact Hreq|].
  rewrite Hfiles. vm_compute. reflexivity.
Defined.

(** X22: the remote sheet can be selected from the [.env] file, and its two
    variables are read from the merged environment; when the sheet service
    fails the run ends with its exception and the local file is not even
    tested for existence. *)
Theorem run_stops_at_failed_sheet (X : Ext) (w : World) (k : string) (e : Exn) :
  merged_environ X w !! "OPENAI_API_KEY" = Some k -> k <> "" ->
  lower (default "false" (merged_environ X w !! "USE_GOOGLE_SHEETS")) = "true" ->
  sheet_records X (files w)
                (merged_environ X w !! "GOOGLE_APPLICATION_CREDENTIALS")
                (merged_environ X w !! "DUMMY_DATA_SPREADSHEET") = Raise e ->
  exists w',
    run_all X w = (Raise e, w') /\
    requests w' = requests w /\ heap w' = heap w /\ files w' = files w /\
    trace w' = trace w ++
      [install_event;
       EvSheets (merged_environ X w !! "GOOGLE_APPLICATION_CREDENTIALS")
                (merged_environ X w !! "DUMMY_DATA_SPREADSHEET")].
Proof.
  intros Hk Hne Hflag Hsheet. unfold run_all.
  rewrite (setup_then X w k (pipeline X) Hk Hne).
  eexists. split.
  - unfold pipeline, cell_load, load_data, getenv_default, load_from_google_sheets,
      getenv, bind, emit. cbn.
    rewrite bool_decide_eq_true_2 by exact Hflag. cbn. rewrite Hsheet. reflexivity.
  - cbn. rewrite <- app_assoc. repeat split; reflexivity.
Qed.

Lemma run_stops_at_failed_sheet_witness :
  environ no_file_world !! "USE_GOOGLE_SHEETS" = None /\
  dotenv sheet_env_ext !! "USE_GOOGLE_SHEETS" = Some "TRUE" /\
  exists w',
    run_all sheet_env_ext no_file_world =
      (Raise (mkExn "TypeError" "expected str, bytes or os.PathLike object, not NoneType"),
       w') /\
    trace w' = trace no_file_world ++
      [install_event; EvSheets None (Some "https://sheet")].
Proof.
  split; [reflexivity|]. split; [vm_compute; reflexivity|].
  edestruct (run_stops_at_failed_sheet sheet_env_ext no_file_world "sk-env")
    as (w' & Hrun & _ & _ & _ & Htrace);
    [vm_compute; reflexivity | discriminate | vm_compute; reflexivity
    | vm_compute; reflexivity | ].
  exists w'. split; [exact Hrun|]. rewrite Htrace. vm_compute. reflexivity.
Defined.


(** X27: a run from the remote sheet in which nothing fails: the records (at
    least one) become a new frame, the classifier fills it, the summary is
    asked for with the figures of the classified frame and the advice with
    its table, in this order and right after the classification requests;
    the document is made from the stripped summary and the advice as
    returned.  The local data file is not needed. *)
Theorem sheet_run_end_to_end (X : Ext) (w : World) (k s a : string)
    (d d1 : DataFrame) (n1 : nat) (fs : gmap string string) :
  merged_environ X w !! "OPENAI_API_KEY" = Some k -> k <> "" ->
  lower (default "false" (merged_environ X w !! "USE_GOOGLE_SHEETS")) = "true" ->
  sheet_records X (files w)
                (merged_environ X w !! "GOOGLE_APPLICATION_CREDENTIALS")
                (merged_environ X w !! "DUMMY_DATA_SPREADSHEET") = Ok d ->
  d <> [] ->
  pass_model X (requests w) d = (Ok tt, d1, n1) ->
  chat_completion X n1 "gpt-4o-mini" (summary_request X d1) = Ok s ->
  chat_completion X (S n1) "gpt-4o-mini"
    (advice_request X d1 (PyInt 30) (PyStr "Urban") (PyStr "Reading, Traveling")) = Ok a ->
  pdfkit_engine X (html_content (strip s) a) "financial_report.pdf" pdf_options
                (files w) = (None, fs) ->
  exists l w',
    run_all X w = (Ok tt, w') /\
    heap w !! l = None /\
    heap w' = <[l := d1]> (heap w) /\
    requests w' = S (S n1) /\
    files w' = fs /\
    last (trace w') = Some (EvPrint "PDF report has been generated.").
Proof.
  intros Hk Hne Hflag Hsheet Hd Hpass Hs Ha Hpdf. unfold run_all.
  rewrite (setup_then X w k (pipeline X) Hk Hne).
  destruct (cell_load_sheet X (after_setup X w k) d Hflag Hsheet Hd)
    as (l & w1 & Hload & Hfresh & Hheap1 & Hreq1 & Hfiles1 & _).
  cbn [after_setup heap requests files] in Hfresh, Hheap1, Hreq1, Hfiles1.
  assert (Hd1 : heap w1 !! l = Some d) by (rewrite Hheap1; apply lookup_insert_eq).
  rewrite <- Hreq1 in Hpass. rewrite <- Hfiles1 in Hpdf.
  destruct (cells_after_load_ok X l w1 s a d d1 n1 fs Hd1 Hpass Hs Ha Hpdf)
    as (w' & Hrun & Hheap & Hreq & Hfs & Hlast).
  exists l, w'. unfold pipeline. rewrite (bind_ok _ _ _ _ _ Hload).
  split; [exact Hrun|]. split; [exact Hfresh|].
  split; [rewrite Hheap, Hheap1; apply insert_insert_eq|].
  split; [exact Hreq|]. split; [exact Hfs|exact Hlast].
Qed.

Lemma sheet_run_end_to_end_witness :
  merged_environ sheet_ext sheet_run_world !! "OPENAI_API_KEY" = Some "sk-env" /\
  sheet_records sheet_ext (files sheet_run_world) (Some "credentials.json")
                (Some "https://sheet") = Ok sheet_frame /\
  sheet_frame <> [] /\
  exists l w',
    run_all sheet_ext sheet_run_world = (Ok tt, w') /\
    heap w' !! l = Some [mkTransaction "2024-09-02" "Grocery shopping at Coles"
                                       (Some "Groceries") "Expense" (Int64 20050);
                         mkTransaction "2024-09-03" "Sydney Water Bill"
                                       (Some "Utilities") "Expense" (Int64 8075)] /\
    requests w' = 3%nat /\
    files w' !! "financial_report.pdf" = Some "%PDF-1.4 report".
Proof.
  split; [vm_compute; reflexivity|]. split; [vm_compute; reflexivity|].
  split; [discriminate|].
  edestruct (sheet_run_end_to_end sheet_ext sheet_run_world "sk-env")
    as (l & w' & Hrun & _ & Hheap & Hreq & Hfiles & _);
    [vm_compute; reflexivity | discriminate | vm_compute; reflexivity
    | vm_compute; reflexivity | discriminate | vm_compute; reflexivity
    | vm_compute; reflexivity | vm_compute; reflexivity | vm_compute; reflexivity | ].
  exists l, w'. split; [exact Hrun|].
  split; [rewrite Hheap; apply lookup_insert_eq|].
  split; [exact Hreq|].
  rewrite Hfiles. vm_compute. reflexivity.
Defined.


(** X28: a remote sheet that has no record gives a frame without columns:
    the loading cell prints it, and the run stops in the classifier with the
    [KeyError] of the Category column it looks for; no request is sent and
    no document is written. *)
Theorem run_stops_at_empty_sheet (X : Ext) (w : World) (k : string) :
  merged_environ X w !! "OPENAI_API_KEY" = Some k -> k <> "" ->
  lower (default "false" (merged_environ X w !! "USE_GOOGLE_SHEETS")) = "true" ->
  sheet_records X (files w)
                (merged_environ X w !! "GOOGLE_APPLICATION_CREDENTIALS")
                (merged_environ X w !! "DUMMY_DATA_SPREADSHEET") = Ok [] ->
  exists w',
    run_all X w = (Raise (mkExn "KeyError" "'Category'"), w') /\
    requests w' = requests w /\ heap w' = heap w /\ files w' = files w /\
    trace w' = trace w ++
      [install_event;
       EvSheets (merged_environ X w !! "GOOGLE_APPLICATION_CREDENTIALS")
                (merged_environ X w !! "DUMMY_DATA_SPREADSHEET");
       EvPrintHead []; EvPrintInfo []; EvPrint "None"].
Proof.
  intros Hk Hne Hflag Hsheet. unfold run_all.
  rewrite (setup_then X w k (pipeline X) Hk Hne).
  pose proof (fresh_frame_unused (after_setup X w k)) as Hfresh.
  cbn [after_setup heap bare] in Hfresh.
  eexists. split.
  - unfold pipeline, cell_load, cell_categorize, categorize_transactions, load_data,
      getenv_default, load_from_google_sheets, getenv, DataFrame_of_records,
      new_bare_frame, get_frame, get_column, bind, emit, print, ret. cbn.
    rewrite bool_decide_eq_true_2 by exact Hflag. cbn. rewrite Hsheet. cbn.
    rewrite Hfresh.
    rewrite decide_True by (apply elem_of_union; left; apply elem_of_singleton; reflexivity).
    cbn. rewrite Hfresh.
    rewrite decide_True by (apply elem_of_union; left; apply elem_of_singleton; reflexivity).
    reflexivity.
  - cbn. rewrite <- !app_assoc. repeat split; reflexivity.
Qed.

Lemma run_stops_at_empty_sheet_witness :
  merged_environ empty_sheet_ext sheet_run_world !! "OPENAI_API_KEY" = Some "sk-env" /\
  sheet_records empty_sheet_ext (files sheet_run_world) (Some "credentials.json")
                (Some "https://sheet") = Ok [] /\
  exists w',
    run_all empty_sheet_ext sheet_run_world = (Raise (mkExn "KeyError" "'Category'"), w') /\
    requests w' = 0%nat /\
    files w' = files sheet_run_world.
Proof.
  split; [vm_compute; reflexivity|]. split; [vm_compute; reflexivity|].
  edestruct (run_stops_at_empty_sheet empty_sheet_ext sheet_run_world "sk-env")
    as (w' & Hrun & Hreq & _ & Hfiles & _);
    [vm_compute; reflexivity | discriminate | vm_compute; reflexivity
    | vm_compute; reflexivity | ].
  exists w'. split; [exact Hrun|]. split; [exact Hreq|exact Hfiles].
Defined.
(** ** Classifier and Aggregator together *)

(** X23: after a pass in which every request succeeded and returned a label, no
    spending is filed under the empty category. *)
Theorem no_spending_under_empty_text (X : Ext) (df : nat) (w : World) (d : DataFrame) :
  heap w !! df = Some d ->
  (forall n description,
     exists label, answer X n description = Ok label /\ has_visible label = true) ->
  exists w' d',
    categorize_transactions X df w = (Ok df, w') /\
    heap w' !! df = Some d' /\
    category_spending X d' !! "" = None.
Proof.
  intros Hd Hall.
  destruct (categorize_transactions_model X df w d Hd) as (Hres & Hheap & _).
  rewrite pass_model_succeeds in Hres
    by (intros n s; destruct (Hall n s) as (l & Hl & _); exists l; exact Hl).
  destruct (categorize_transactions X df w) as [res w1].
  cbn [fst snd] in Hres, Hheap. subst res.
  exists w1, (pass_model X (requests w) d).1.2.
  split; [reflexivity|]. split; [rewrite Hheap; apply lookup_insert_eq|].
  rewrite category_spending_lookup. apply decide_False.
  intros Hex. apply Exists_exists in Hex as (r & Hin & _ & Hc).
  pose proof (pass_model_leaves_no_empty X d Hall (requests w)) as Hnil.
  assert (Hr : r ∈ empty_rows (pass_model X (requests w) d).1.2).
  { unfold empty_rows. apply list_elem_of_filter. split; assumption. }
  rewrite Hnil in Hr. inversion Hr.
Qed.

Lemma no_spending_under_empty_text_witness :
  heap c2_world !! 0%nat = Some c2_frame /\
  category_spending quiet_ext c2_frame !! "" = Some (Int64 8075) /\
  exists w' d',
    categorize_transactions quiet_ext 0 c2_world = (Ok 0%nat, w') /\
    heap w' !! 0%nat = Some d' /\
    category_spending quiet_ext d' !! "" = None.
Proof.
  split; [reflexivity|]. split; [vm_compute; reflexivity|].
  apply (no_spending_under_empty_text quiet_ext 0 c2_world c2_frame eq_refl).
  intros n s. exists "Miscellaneous". split; reflexivity.
Defined.

(** ** The Report Renderer: a heading line *)

Lemma free_of_no_char (c : Ascii.ascii) (a : string) :
  free_of c a = true -> occursb (String c "") a = false.
Proof.
  induction a as [|x a IH]; intros Hfree; [reflexivity|].
  cbn [free_of] in Hfree. apply andb_true_iff in Hfree as [Hx Hfree].
  rewrite occursb_unfold, (IH Hfree). cbn [String.prefix].
  destruct (Ascii.ascii_dec c x); [discriminate|reflexivity].
Qed.

Lemma replace_char_keeps_prefix (c : Ascii.ascii) (new a b : string) :
  free_of c a = true ->
  replace (String c "") new (a +:+ b) = a +:+ replace (String c "") new b.
Proof.
  intros Hfree. rewrite replace_char_app. f_equal.
  apply replace_absent, free_of_no_char, Hfree.
Qed.

(** X25: a text that starts with the heading marker and a space comes out with the
    opening heading tag in its place, followed by the markup of the rest; no
    closing tag is added. *)
Theorem markup_heading_line (text : string) :
  markup ("### " +:+ text) = "<h3> " +:+ markup text.
Proof.
  unfold markup.
  change ("### " +:+ text) with ("###" +:+ String (Ascii.ascii_of_nat 32) text).
  rewrite (replace_across_separator 1 star (Ascii.ascii_of_nat 32) "" text
             ltac:(discriminate) "###" 0%nat ltac:(cbn; lia)
           : replace "**" "" ("###" +:+ String (Ascii.ascii_of_nat 32) text) = _).
  change (replace_from (srep 2 star) "" 0 "###") with "###".
  rewrite (replace_across_separator 2 hash (Ascii.ascii_of_nat 32) "<h3>" _
             ltac:(discriminate) "###" 0%nat ltac:(cbn; lia)
           : replace "###" "<h3>" ("###" +:+ String (Ascii.ascii_of_nat 32) _) = _).
  change (replace_from (srep 3 hash) "<h3>" 0 "###") with "<h3>".
  change ("<h3>" +:+ String (Ascii.ascii_of_nat 32) ?x) with ("<h3> " +:+ x).
  change nl with (String line_feed "").
  apply (replace_char_keeps_prefix line_feed "<br>" "<h3> "). reflexivity.
Qed.

